(** * Component availability dashboard (MES/app.py)

    A shallow embedding of the table logic of [app.py]: category
    assignment over the rows of the uploaded sheet, the filters, the
    normalisation of "Available Up To", and the availability counts that
    feed the metrics, the ranked tables and the charts.

    Text is modelled as [string]; the Python [str] methods the script
    calls are written out for ASCII text, where [isspace], [isnumeric],
    [upper] and the regular expression class [\d] are decided by the
    character code alone.  A cell of the sheet is a text, an integer or a
    missing value; floating-point cells are outside the model. *)

From Stdlib Require Import List String Ascii ZArith Bool Arith Lia.
From Stdlib Require Import DecimalString DecimalPos Permutation Sorted.
Import ListNotations.

Open Scope string_scope.
Open Scope list_scope.
Open Scope nat_scope.

(* ------------------------------------------------------------------ *)
(** ** Python [str] methods used by the script *)

Module Py.

Definition code (c : ascii) : nat := nat_of_ascii c.

(** [c.isspace()]: TAB, LF, VT, FF, CR, the separators FS GS RS US and
    the blank. *)
Definition isspace (c : ascii) : bool :=
  let n := code c in
  (((9 <=? n) && (n <=? 13)) || ((28 <=? n) && (n <=? 32)))%nat.

(** A decimal digit ['0'..'9']; on ASCII text this is the character
    test behind [str.isnumeric] and the regular expression [\d]. *)
Definition isdigit (c : ascii) : bool :=
  let n := code c in ((48 <=? n) && (n <=? 57))%nat.

Fixpoint all_chars (p : ascii -> bool) (s : string) : bool :=
  match s with
  | EmptyString => true
  | String c s' => p c && all_chars p s'
  end.

(** [s.isnumeric()]: at least one character, and every character
    numeric. *)
Definition isnumeric (s : string) : bool :=
  match s with
  | EmptyString => false
  | String _ _ => all_chars isdigit s
  end.

(** Removal of the leading and of the trailing characters that [blank]
    accepts. *)
Fixpoint lstrip_of (blank : ascii -> bool) (s : string) : string :=
  match s with
  | EmptyString => EmptyString
  | String c s' => if blank c then lstrip_of blank s' else s
  end.

Fixpoint rstrip_of (blank : ascii -> bool) (s : string) : string :=
  match s with
  | EmptyString => EmptyString
  | String c s' =>
      match rstrip_of blank s' with
      | EmptyString => if blank c then EmptyString else String c EmptyString
      | t => String c t
      end
  end.

Definition strip_of (blank : ascii -> bool) (s : string) : string :=
  rstrip_of blank (lstrip_of blank s).

(** [s.strip()] *)
Definition strip (s : string) : string := strip_of isspace s.

Definition upper_char (c : ascii) : ascii :=
  let n := code c in
  if ((97 <=? n) && (n <=? 122))%nat then ascii_of_nat (n - 32) else c.

Fixpoint map_chars (f : ascii -> ascii) (s : string) : string :=
  match s with
  | EmptyString => EmptyString
  | String c s' => String (f c) (map_chars f s')
  end.

(** [s.upper()] on ASCII text: the letters ['a'..'z'] are uppercased. *)
Definition upper (s : string) : string := map_chars upper_char s.

(** [s.replace(c, "")] for a one-character pattern [c]: every
    occurrence of [c] is removed. *)
Fixpoint remove_char (c : ascii) (s : string) : string :=
  match s with
  | EmptyString => EmptyString
  | String d s' =>
      if Ascii.eqb d c then remove_char c s' else String d (remove_char c s')
  end.

(** [needle in s] *)
Fixpoint contains (needle s : string) : bool :=
  prefix needle s ||
  match s with
  | EmptyString => false
  | String _ s' => contains needle s'
  end.

(** [str(z)] for an integer. *)
Definition str_of_int (z : Z) : string :=
  NilZero.string_of_int (Z.to_int z).

Definition digit_value (c : ascii) : Z := Z.of_nat (code c - 48).

Fixpoint int_of_digits_from (acc : Z) (s : string) : Z :=
  match s with
  | EmptyString => acc
  | String c s' => int_of_digits_from (10 * acc + digit_value c)%Z s'
  end.

(** The value of a run of decimal digits. *)
Definition int_of_digits (s : string) : Z := int_of_digits_from 0 s.

End Py.

(* ------------------------------------------------------------------ *)
(** ** Cells, rows and frames *)

(** A value held by one cell of the sheet. [NaN] is the missing value
    that the readers produce for an empty cell; [PyNone] is the [None]
    that [assign_categories] stores. *)
Inductive cell : Type :=
| Text (s : string)
| Int (z : Z)
| NaN
| PyNone.

(** [str(v)] *)
Definition str (v : cell) : string :=
  match v with
  | Text s => s
  | Int z => Py.str_of_int z
  | NaN => "nan"
  | PyNone => "None"
  end.

Definition cell_eqb (a b : cell) : bool :=
  match a, b with
  | Text s, Text t => String.eqb s t
  | Int x, Int y => Z.eqb x y
  | _, _ => false
  end.

(** [v == "A"] and the like: comparison of a cell with a text. *)
Definition is_text (t : string) (v : cell) : bool := cell_eqb v (Text t).

(** [notna] *)
Definition notna (v : cell) : bool :=
  match v with
  | NaN | PyNone => false
  | _ => true
  end.

(** One row of the frame, as [iterrows] yields it: the values of the row
    under their column labels. *)
Definition Series : Type := list (string * cell).

(** [row.get(label, default)] *)
Fixpoint get (row : Series) (label : string) (default : cell) : cell :=
  match row with
  | [] => default
  | (l, v) :: rest => if String.eqb l label then v else get rest label default
  end.

(** [row[label] = v]: replaces the value under an existing label, appends
    a new label at the end. *)
Fixpoint set (row : Series) (label : string) (v : cell) : Series :=
  match row with
  | [] => [(label, v)]
  | (l, w) :: rest =>
      if String.eqb l label then (l, v) :: rest else (l, w) :: set rest label v
  end.

Record DataFrame : Type := mkFrame {
  columns : list string;
  rows : list Series
}.

Definition has_column (df : DataFrame) (label : string) : bool :=
  existsb (String.eqb label) (columns df).

(** The cell of a row under a column of the frame. *)
Definition at_col (label : string) (row : Series) : cell := get row label NaN.

(* ------------------------------------------------------------------ *)
(** ** [assign_categories] (app.py, lines 5-21) *)

Definition nomenclature_of (row : Series) : string :=
  Py.strip (str (get row "Nomenclature" (Text ""))).

Definition bom_qty_of (row : Series) : string :=
  Py.strip (str (get row "Bom Qty" (Text ""))).

(** The text tested on line 14: [bom_qty.replace("-", "").replace(" ", "")]. *)
Definition bom_qty_digits (row : Series) : string :=
  Py.remove_char " " (Py.remove_char "-" (bom_qty_of row)).

(** The condition of line 14: the row is a category heading. *)
Definition is_heading (row : Series) : bool :=
  negb (Py.isnumeric (bom_qty_digits row)).

(** The loop state: the current [category] and the [categories] list. *)
Definition scan_state : Type := (option string * list (option string))%type.

(** One iteration of the [for] loop of lines 9-18. *)
Definition scan_step (st : scan_state) (row : Series) : scan_state :=
  let '(category, categories) := st in
  if is_heading row
  then (Some (Py.upper (nomenclature_of row)), categories ++ [None])
  else (category, categories ++ [category]).

Definition scan (rs : list Series) : scan_state :=
  fold_left scan_step rs (None, []).

(** The list [categories] when the loop ends. *)
Definition categories_of (rs : list Series) : list (option string) :=
  snd (scan rs).

Definition category_cell (c : option string) : cell :=
  match c with
  | Some s => Text s
  | None => PyNone
  end.

Definition add_label (cols : list string) (label : string) : list string :=
  if existsb (String.eqb label) cols then cols else cols ++ [label].

(** [df[label] = values] *)
Definition set_column (df : DataFrame) (label : string) (values : list cell)
  : DataFrame :=
  mkFrame (add_label (columns df) label)
          (map (fun rv => set (fst rv) label (snd rv)) (combine (rows df) values)).

Definition assign_categories (df_raw : DataFrame) : DataFrame :=
  set_column df_raw "Category" (map category_cell (categories_of (rows df_raw))).

(* ------------------------------------------------------------------ *)
(** ** pandas primitives used by the script

    pandas is a library of the script, not part of it.  [to_numeric]
    follows its documented behaviour on the cells of the model: a number
    stays a number, a text is read as a decimal literal (optional blanks
    around an optional sign and digits with an optional fraction and an
    optional exponent) or as a signed infinity, and with
    [errors="coerce"] anything else becomes missing.  The value of a
    literal that is not an integer is a floating-point number and is not
    represented. *)

Module Pd.

Inductive numeric : Type :=
| Integral (z : Z)
| Fractional
| Missing.

Fixpoint take_while (p : ascii -> bool) (s : string) : string :=
  match s with
  | EmptyString => EmptyString
  | String c s' => if p c then String c (take_while p s') else EmptyString
  end.

Fixpoint drop_while (p : ascii -> bool) (s : string) : string :=
  match s with
  | EmptyString => EmptyString
  | String c s' => if p c then drop_while p s' else s
  end.

Definition is_sign (c : ascii) : bool := Ascii.eqb c "+" || Ascii.eqb c "-".

Definition drop_sign (s : string) : string :=
  match s with
  | String c s' => if is_sign c then s' else s
  | EmptyString => s
  end.

Definition is_negative (s : string) : bool :=
  match s with
  | String c _ => Ascii.eqb c "-"
  | EmptyString => false
  end.

Definition lower_char (c : ascii) : ascii :=
  let n := Py.code c in
  if ((65 <=? n) && (n <=? 90))%nat then ascii_of_nat (n + 32) else c.

Definition lower (s : string) : string := Py.map_chars lower_char s.

(** The blanks the number reader skips around a literal: TAB, LF, VT,
    FF, CR and the space. *)
Definition is_blank (c : ascii) : bool :=
  let n := Py.code c in
  (((9 <=? n) && (n <=? 13)) || (n =? 32))%nat.

Definition is_infinity (body : string) : bool :=
  String.eqb (lower body) "inf" || String.eqb (lower body) "infinity".

Definition is_exponent_mark (c : ascii) : bool :=
  Ascii.eqb c "e" || Ascii.eqb c "E".

Definition signed (negative : bool) (z : Z) : Z :=
  if negative then (- z)%Z else z.

(** Reading one text as a decimal literal. *)
Definition parse (s : string) : numeric :=
  if is_infinity (drop_sign s) then Fractional else
  let t := Py.strip_of is_blank s in
  let body := drop_sign t in
  let int_part := take_while Py.isdigit body in
  let after_int := drop_while Py.isdigit body in
  let has_point :=
    match after_int with
    | String c _ => Ascii.eqb c "."
    | EmptyString => false
    end in
  let after_point :=
    match after_int with
    | String c r => if Ascii.eqb c "." then r else after_int
    | EmptyString => after_int
    end in
  let frac_part := if has_point then take_while Py.isdigit after_point
                   else EmptyString in
  let tail := if has_point then drop_while Py.isdigit after_point
              else after_int in
  if String.eqb int_part "" && String.eqb frac_part "" then Missing else
  match tail with
  | EmptyString =>
      if has_point then Fractional
      else Integral (signed (is_negative t) (Py.int_of_digits int_part))
  | String e r =>
      if is_exponent_mark e && Py.isnumeric (drop_sign r)
      then Fractional else Missing
  end.

(** [pd.to_numeric(v, errors="coerce")] on one cell. *)
Definition to_numeric (v : cell) : numeric :=
  match v with
  | Text s => parse s
  | Int z => Integral z
  | NaN | PyNone => Missing
  end.

(** [.notna()] on the result of [to_numeric]. *)
Definition numeric_notna (n : numeric) : bool :=
  match n with
  | Missing => false
  | _ => true
  end.

(** The first match of the regular expression [(\d+)] in a text:
    [.str.extract(r"(\d+)", expand=False)] on one value. *)
Fixpoint extract_digits (s : string) : option string :=
  match s with
  | EmptyString => None
  | String c s' =>
      if Py.isdigit c then Some (take_while Py.isdigit s)
      else extract_digits s'
  end.

(** The extracted value as a cell: the matched text, or missing. *)
Definition extracted (s : string) : cell :=
  match extract_digits s with
  | Some ds => Text ds
  | None => NaN
  end.

End Pd.

(* ------------------------------------------------------------------ *)
(** ** Row filters and normalisation (app.py, lines 49-70) *)

(** Line 62: the rows kept by
    [df[pd.to_numeric(df["Bom Qty"], errors="coerce").notna()]]. *)
Definition bom_qty_is_number (row : Series) : bool :=
  Pd.numeric_notna (Pd.to_numeric (at_col "Bom Qty" row)).

Definition drop_heading_rows (rs : list Series) : list Series :=
  filter bom_qty_is_number rs.

(** Every whole number up to [2^53] is a double-precision float, and as
    a float it is written without an exponent.  [to_numeric] hands back
    64-bit integers or, when a cell of the column is missing or a run of
    digits is too long for them, floats: up to this limit the number read
    is the same in both. *)
Definition exact_limit : Z := 9007199254740992.

(** Lines 65-70 on one cell of "Available Up To": the text form of the
    cell, its first run of digits, read as a number.  A run of digits
    always reads as an integer, so the other two cases of [to_numeric]
    only arise from the missing value.  The integer is kept exact; it is
    the number pandas yields for runs of digits up to [exact_limit], past
    which a float column rounds. *)
Definition normalize_available_up_to (v : cell) : cell :=
  match Pd.to_numeric (Pd.extracted (str v)) with
  | Pd.Integral z => Int z
  | Pd.Fractional | Pd.Missing => NaN
  end.

(* ------------------------------------------------------------------ *)
(** ** Availability counts (app.py, lines 75-139) *)

(** Line 76: the Test-Stage columns. *)
Definition test_columns_of (cols : list string) : list string :=
  filter (Py.contains "(A/I/F)") cols.

(** [(row == code).sum()] over the Test-Stage fields of one row. *)
Definition count_status (code : string) (test_columns : list string)
  (row : Series) : nat :=
  List.length (filter (fun c => is_text code (at_col c row)) test_columns).

(** Line 79. *)
Definition available_in (test_columns : list string) (row : Series) : nat :=
  count_status "A" test_columns row.

(** [(df[col] == code).sum()]: one entry of [(df[test_columns] == code).sum()]. *)
Definition column_total (code : string) (rs : list Series) (col : string) : nat :=
  List.length (filter (fun row => is_text code (at_col col row)) rs).

(** Lines 125-128: per Test-Stage column, its "Available" and "Short"
    totals. *)
Definition system_availability (test_columns : list string) (rs : list Series)
  : list (string * (nat * nat)) :=
  map (fun c => (c, (column_total "A" rs c, column_total "S" rs c))) test_columns.

Definition sum_list (l : list nat) : nat := fold_right Nat.add 0 l.

(** Lines 138-139: [(df[test_columns] == code).sum().sum()]. *)
Definition grand_total (code : string) (test_columns : list string)
  (rs : list Series) : nat :=
  sum_list (map (column_total code rs) test_columns).

(** Lines 107-109: the frame [status_counts], one row per component. *)
Definition count_cell (n : nat) : cell := Int (Z.of_nat n).

Definition status_row (test_columns : list string) (row : Series) : Series :=
  [("Component", at_col "Nomenclature" row);
   ("Short Count", count_cell (count_status "S" test_columns row));
   ("Available Count", count_cell (count_status "A" test_columns row))].

Definition status_counts (test_columns : list string) (rs : list Series)
  : list Series :=
  map (status_row test_columns) rs.

(** The integer under a label, the sort key of [sort_values]. *)
Definition key_of (label : string) (row : Series) : Z :=
  match at_col label row with
  | Int z => z
  | _ => 0%Z
  end.

(* ------------------------------------------------------------------ *)
(** ** The script as a computation

    A run of the script either goes through or stops at the first
    exception raised; on the way it hands elements to the page.  The
    computation type records both: the elements shown so far and the
    result. *)

Inductive exn : Type :=
| KeyError (labels : list string)
| TypeError
| PlotError.

Inductive result (A : Type) : Type :=
| Ok (a : A)
| Raise (e : exn).

Arguments Ok {A} a.
Arguments Raise {A} e.

(** What a metric shows: a count, or the mean [total / count] that the
    script formats with two decimals. *)
Inductive metric_value : Type :=
| Count (n : nat)
| Mean (total : nat) (count : nat).

(** The calls into the page that the script makes, and the box in which
    the page shows an exception that the script did not catch. *)
Inductive element : Type :=
| header (text : string)
| selectbox (label : string) (options : list cell)
| subheader (text : string)
| write (text : string)
| dataframe (df : DataFrame)
| metric (label : string) (value : metric_value)
| exception (text : string)
| pyplot (title : string) (bars : list (string * (nat * nat))).

Definition M (A : Type) : Type := (list element * result A)%type.

Definition ret {A : Type} (a : A) : M A := ([], Ok a).

Definition bind {A B : Type} (m : M A) (k : A -> M B) : M B :=
  match m with
  | (shown, Ok a) => let '(more, r) := k a in (shown ++ more, r)
  | (shown, Raise e) => (shown, Raise e)
  end.

Definition emit (e : element) : M unit := ([e], Ok tt).

Definition raise {A : Type} (e : exn) : M A := ([], Raise e).

(** The text of an exception: its kind and, for a key error, the labels
    that were not found. *)
Definition exn_text (e : exn) : string :=
  match e with
  | KeyError labels => ("KeyError: " ++ String.concat ", " labels)%string
  | TypeError => "TypeError"
  | PlotError => "PlotError"
  end.

(** The page when the run ends: the elements the script showed and, when
    it stopped at an exception, the exception. *)
Definition page {A : Type} (out : M A) : list element :=
  fst out ++ match snd out with
             | Ok _ => []
             | Raise e => [exception (exn_text e)]
             end.

Notation "x <- m ;; k" := (bind m (fun x => k))
  (at level 61, m at next level, right associativity).
Notation "m ;;; k" := (bind m (fun _ => k))
  (at level 61, right associativity).

(** [df[label]]: the column, or [KeyError].  This is the reading of a
    frame whose labels are pairwise distinct; under a label that two
    columns share pandas hands back a sub-frame, and what the script then
    does with it is outside this model: the theorems that depend on it
    assume [NoDup (columns df)]. *)
Definition column (df : DataFrame) (label : string) : M (list cell) :=
  if has_column df label then ret (map (at_col label) (rows df))
  else raise (KeyError [label]).

Definition project (labels : list string) (row : Series) : Series :=
  map (fun l => (l, at_col l row)) labels.

(** [df[[l1, ..., ln]]]: the sub-frame, or [KeyError] with the labels that
    are not columns. *)
Definition select (df : DataFrame) (labels : list string) : M DataFrame :=
  match filter (fun l => negb (has_column df l)) labels with
  | [] => ret (mkFrame labels (map (project labels) (rows df)))
  | missing => raise (KeyError missing)
  end.

(** [df[mask]] for a mask computed row by row. *)
Definition where_rows (keep : Series -> bool) (df : DataFrame) : DataFrame :=
  mkFrame (columns df) (filter keep (rows df)).

Definition head (n : nat) (df : DataFrame) : DataFrame :=
  mkFrame (columns df) (firstn n (rows df)).

(** [.unique()]: the distinct values, each at its first occurrence. *)
Fixpoint unique (l : list cell) : list cell :=
  match l with
  | [] => []
  | v :: rest => v :: filter (fun w => negb (cell_eqb w v)) (unique rest)
  end.

Definition cell_leb (a b : cell) : bool :=
  match a, b with
  | Text s, Text t => String.leb s t
  | Int x, Int y => Z.leb x y
  | _, _ => true
  end.

Fixpoint insert_cell (v : cell) (l : list cell) : list cell :=
  match l with
  | [] => [v]
  | w :: rest => if cell_leb v w then v :: l else w :: insert_cell v rest
  end.

Definition is_Text (v : cell) : bool :=
  match v with Text _ => true | _ => false end.

Definition is_Int (v : cell) : bool :=
  match v with Int _ => true | _ => false end.

(** Texts and integers occur together; they do not compare with each
    other. *)
Definition mixed (l : list cell) : bool :=
  existsb is_Text l && existsb is_Int l.

(** [sorted(l)] on present values. *)
Definition sorted (l : list cell) : M (list cell) :=
  if mixed l then raise TypeError
  else ret (fold_right insert_cell [] l).

(** The three choices made in the sidebar. *)
Record selection : Type := mkSelection {
  selected_section : cell;
  selected_system : string;
  selected_category : string
}.

Definition required_preview : list string :=
  ["Section"; "Category"; "Nomenclature"; "Bom Qty"; "Stock"].

(** Lines 40-47: the sidebar and its three selectors. *)
Definition sidebar (df : DataFrame) : M unit :=
  emit (header "🔎 Filter Options") ;;;
  section <- column df "Section" ;;
  section_options <- sorted (unique (filter notna section)) ;;
  emit (selectbox "Filter by Section" (Text "All" :: section_options)) ;;;
  category <- column df "Category" ;;
  category_options <- sorted (unique (filter notna category)) ;;
  emit (selectbox "Filter by Category" (Text "All" :: category_options)) ;;;
  let test_cols := test_columns_of (columns df) in
  emit (selectbox "Filter by System Type" (Text "All" :: map Text test_cols)).

(** [if chosen != "All": df = df[df[label] == ...]]: one filter of lines
    49-58, with the comparison [keep] it applies to the rows. *)
Definition filter_unless_all (is_all : bool) (label : string)
  (keep : Series -> bool) (df : DataFrame) : M DataFrame :=
  if negb is_all
  then _ <- column df label ;; ret (where_rows keep df)
  else ret df.

(** Lines 49-58: Section, then System Type, then Category. *)
Definition apply_filters (sel : selection) (df : DataFrame) : M DataFrame :=
  df <- filter_unless_all (is_text "All" (selected_section sel)) "Section"
          (fun r => cell_eqb (at_col "Section" r) (selected_section sel)) df ;;
  df <- filter_unless_all (String.eqb (selected_system sel) "All")
          (selected_system sel)
          (fun r => is_text "A" (at_col (selected_system sel) r)) df ;;
  filter_unless_all (String.eqb (selected_category sel) "All") "Category"
    (fun r => is_text (selected_category sel) (at_col "Category" r)) df.

(** Lines 60-73: heading rows dropped, "Available Up To" normalised, the
    preview shown. *)
Definition clean (df : DataFrame) : M DataFrame :=
  _ <- column df "Bom Qty" ;;
  let df := where_rows bom_qty_is_number df in
  available_up_to <- column df "Available Up To" ;;
  let df := set_column df "Available Up To"
              (map normalize_available_up_to available_up_to) in
  emit (subheader "Preview of Cleaned Data") ;;;
  preview <- select df required_preview ;;
  emit (dataframe (head 100 preview)) ;;;
  ret df.

(** Lines 37-73: categories, sidebar, filters, normalisation, preview. *)
Definition prepare (sel : selection) (df_raw : DataFrame) : M DataFrame :=
  let df_raw := assign_categories df_raw in
  let df := df_raw in
  sidebar df ;;;
  df <- apply_filters sel df ;;
  clean df.

(** Lines 75-96: the Test-Stage columns, "Available In", the four
    metrics and the two tables of extremes. *)
Definition metrics (df : DataFrame) : M (DataFrame * list string) :=
  let test_columns := test_columns_of (columns df) in
  let counts := map (available_in test_columns) (rows df) in
  let df := set_column df "Available In" (map count_cell counts) in
  let all_system :=
    where_rows (fun r => cell_eqb (at_col "Available In" r)
                                  (count_cell (List.length test_columns))) df in
  let none_system :=
    where_rows (fun r => cell_eqb (at_col "Available In" r) (Int 0)) df in
  emit (metric "📦 Total Components" (Count (List.length (rows df)))) ;;;
  emit (metric "🔁 Avg Used In Systems"
          (Mean (sum_list counts) (List.length counts))) ;;;
  emit (metric "✅ Used in All Systems" (Count (List.length (rows all_system)))) ;;;
  emit (metric "❌ Used in None" (Count (List.length (rows none_system)))) ;;;
  emit (subheader "✅ Components Used in All System Types") ;;;
  shown <- select all_system ["Nomenclature"; "Available In"] ;;
  emit (dataframe shown) ;;;
  emit (subheader "❌ Components Not Used in Any System Type") ;;;
  shown <- select none_system ["Nomenclature"; "Available In"] ;;
  emit (dataframe shown) ;;;
  ret (df, test_columns).

(** Lines 124-135: the system-wise summary and its bar chart.  The
    summary has one row per Test-Stage column.  Handed a summary without
    rows, [DataFrame.plot] of line 132 raises: [PlotError] stands for that
    exception, whose class is the library's (a type error, "no numeric
    data to plot", when the empty sums carry no numeric type, an index
    error otherwise). *)
Definition summary_chart (df : DataFrame) (test_columns : list string)
  : M DataFrame :=
  let system_availability := system_availability test_columns (rows df) in
  emit (subheader "System-Wise Component Availability Summary") ;;;
  match system_availability with
  | [] => raise PlotError
  | _ :: _ =>
      emit (pyplot "Per System Type Availability vs Shortage"
              system_availability) ;;;
      ret df
  end.

Section Rankings.

(** [rows.sort_values(by, ascending=False)] with the default sorting
    kind, which belongs to the library. *)
Variable sort_values_desc : string -> list Series -> list Series.

Definition top_multiuse (rs : list Series) : list Series :=
  firstn 10 (sort_values_desc "Available In" rs).

Definition top_short (test_columns : list string) (rs : list Series)
  : list Series :=
  firstn 10 (sort_values_desc "Short Count" (status_counts test_columns rs)).

Definition top_available (test_columns : list string) (rs : list Series)
  : list Series :=
  firstn 10 (sort_values_desc "Available Count" (status_counts test_columns rs)).

Definition status_columns : list string :=
  ["Component"; "Short Count"; "Available Count"].

(** Lines 98-122: the three ranked tables. *)
Definition rankings (df : DataFrame) (test_columns : list string)
  : M DataFrame :=
  emit (subheader "Top 10 Components Used in Most System Types") ;;;
  shown <- select (mkFrame (columns df) (top_multiuse (rows df)))
             ["Nomenclature"; "Available In"] ;;
  emit (dataframe shown) ;;;
  emit (subheader "Component Test Stage Summary") ;;;
  _ <- column df "Nomenclature" ;;
  emit (write "Top 10 Shortage Components (Most 'S')") ;;;
  emit (dataframe (mkFrame status_columns (top_short test_columns (rows df)))) ;;;
  emit (write "Top 10 Available Components (Most 'A')") ;;;
  emit (dataframe (mkFrame status_columns (top_available test_columns (rows df)))) ;;;
  ret df.

(** Lines 37-122 of a run on an uploaded sheet whose column labels have
    been cleaned up: the part of the run up to the ranked tables.  The
    run goes on in [script]. *)
Definition main (sel : selection) (df_raw : DataFrame) : M DataFrame :=
  df <- prepare sel df_raw ;;
  counted <- metrics df ;;
  rankings (fst counted) (snd counted).

(** Lines 37-135: the run up to the bar chart of the system-wise
    summary. *)
Definition script (sel : selection) (df_raw : DataFrame) : M DataFrame :=
  df <- prepare sel df_raw ;;
  counted <- metrics df ;;
  df <- rankings (fst counted) (snd counted) ;;
  summary_chart df (snd counted).

End Rankings.

(* ------------------------------------------------------------------ *)
(** ** Reference definitions for the statements *)

(** The label a heading gives to the rows below it. *)
Definition heading_label (h : Series) : string :=
  Py.upper (nomenclature_of h).

(** The most recent heading strictly above position [k]. *)
Definition last_heading_above (rs : list Series) (k : nat) : option Series :=
  find is_heading (rev (firstn k rs)).

(** The category a row at position [k] is expected to carry. *)
Definition expected_category (rs : list Series) (k : nat) (row : Series)
  : option string :=
  if is_heading row then None
  else option_map heading_label (last_heading_above rs k).

(** Descending insertion sort on the integer under [by]. [before] decides
    whether a row goes in front of one already placed. *)
Fixpoint insert_by (before : Z -> Z -> bool) (by_ : string) (x : Series)
  (l : list Series) : list Series :=
  match l with
  | [] => [x]
  | y :: rest =>
      if before (key_of by_ x) (key_of by_ y) then x :: l
      else y :: insert_by before by_ x rest
  end.

(** The stable descending sort: among equal keys the original order is
    kept. *)
Definition stable_sort_desc (by_ : string) (l : list Series) : list Series :=
  fold_right (insert_by Z.geb by_) [] l.

(** A descending sort that is not stable: equal keys come out in the
    reverse of their original order. *)
Definition reversing_sort_desc (by_ : string) (l : list Series) : list Series :=
  fold_right (insert_by Z.gtb by_) [] l.

(** What any sorting kind guarantees of [sort_values(by, ascending=False)]:
    the same rows, in non-increasing order of the key. *)
Definition descending (by_ : string) (l : list Series) : Prop :=
  Sorted (fun a b => (key_of by_ b <= key_of by_ a)%Z) l.

Definition sorts_descending (sort : string -> list Series -> list Series) : Prop :=
  forall by_ l, Permutation (sort by_ l) l /\ descending by_ (sort by_ l).

(** The columns the analysis reads. *)
Definition required_columns : list string :=
  ["Section"; "Nomenclature"; "Bom Qty"; "Stock"; "Available Up To"].

Definition missing_required (cols : list string) : list string :=
  filter (fun l => negb (existsb (String.eqb l) cols)) required_columns.

(** The labels of the key error a run stops at when a column the
    analysis reads is absent: the columns are read in the order Section,
    Bom Qty, Available Up To, and then Nomenclature and Stock together. *)
Definition first_missing (cols : list string) : list string :=
  let absent l := negb (existsb (String.eqb l) cols) in
  if absent "Section" then ["Section"]
  else if absent "Bom Qty" then ["Bom Qty"]
  else if absent "Available Up To" then ["Available Up To"]
  else filter absent ["Nomenclature"; "Stock"].

(** The Section selector can be built: the values of the column are not
    a mix of texts and integers. *)
Definition section_sortable (df : DataFrame) : bool :=
  negb (mixed (map (at_col "Section") (rows df))).

(** The System Type chosen is "All" or a column of the frame. *)
Definition valid_system (sel : selection) (df : DataFrame) : bool :=
  String.eqb (selected_system sel) "All" || has_column df (selected_system sel).

(** [top] is a ranking of the ten largest rows of [l] by the key under
    [by_]: in non-increasing order, ten rows or all of them, taken from
    [l], and no row left out has a larger key. *)
Definition top_ten_of (by_ : string) (l top : list Series) : Prop :=
  descending by_ top /\
  List.length top = Nat.min 10 (List.length l) /\
  exists rest,
    Permutation (top ++ rest) l /\
    forall x y, In x top -> In y rest -> (key_of by_ y <= key_of by_ x)%Z.

(** The text of an element that carries a message. *)
Definition message_text (e : element) : option string :=
  match e with
  | header t | subheader t | write t | exception t => Some t
  | selectbox _ _ | dataframe _ | metric _ _ | pyplot _ _ => None
  end.

(** The element is a message that contains [phrase], whatever the case
    of its letters. *)
Definition mentions (phrase : string) (e : element) : bool :=
  match message_text e with
  | Some t => Py.contains phrase (Pd.lower t)
  | None => false
  end.

(** Some message shown on the page contains [phrase]. *)
Definition reports (phrase : string) (shown : list element) : bool :=
  existsb (mentions phrase) shown.

Definition is_metric (e : element) : bool :=
  match e with metric _ _ => true | _ => false end.

(** Every element a computation shows passes the test [ok]. *)
Definition shows_only {A : Type} (ok : element -> bool) (m : M A) : Prop :=
  forallb ok (fst m) = true.

(** The element is neither a metric nor a message that contains
    [phrase]. *)
Definition plain (phrase : string) (e : element) : bool :=
  negb (is_metric e) && negb (mentions phrase e).

(** Some message shown names every label of [labels]. *)
Definition names_all (labels : list string) (shown : list element) : bool :=
  existsb (fun e => match message_text e with
                    | Some t => forallb (fun l => Py.contains l t) labels
                    | None => false
                    end) shown.

(** The loop of [assign_categories] unrolled from a given current
    category: the labels it appends, and the category it ends with. *)
Fixpoint labels_from (category : option string) (rs : list Series)
  : list (option string) :=
  match rs with
  | [] => []
  | row :: rest =>
      if is_heading row then None :: labels_from (Some (heading_label row)) rest
      else category :: labels_from category rest
  end.

Fixpoint category_after (category : option string) (rs : list Series)
  : option string :=
  match rs with
  | [] => category
  | row :: rest =>
      category_after (if is_heading row then Some (heading_label row)
                      else category) rest
  end.


Definition starts_with_digit (s : string) : bool :=
  match s with
  | String c _ => Py.isdigit c
  | EmptyString => false
  end.

(** One heading "Engine" with Bom Qty "-", then two components with
    quantities 2 and 3 and Test-Stage values ("A", "S") and ("A", "A"). *)
Definition engine_sheet : DataFrame :=
  mkFrame
    ["Section"; "Nomenclature"; "Bom Qty"; "Stock"; "Available Up To";
     "T1(A/I/F)"; "T2(A/I/F)"]
    [[("Section", Text "X"); ("Nomenclature", Text "Engine");
      ("Bom Qty", Text "-"); ("Stock", NaN); ("Available Up To", NaN);
      ("T1(A/I/F)", NaN); ("T2(A/I/F)", NaN)];
     [("Section", Text "X"); ("Nomenclature", Text "Bolt");
      ("Bom Qty", Text "2"); ("Stock", Int 1); ("Available Up To", Text "AP 25");
      ("T1(A/I/F)", Text "A"); ("T2(A/I/F)", Text "S")];
     [("Section", Text "X"); ("Nomenclature", Text "Nut");
      ("Bom Qty", Text "3"); ("Stock", Int 0); ("Available Up To", Text "AP100");
      ("T1(A/I/F)", Text "A"); ("T2(A/I/F)", Text "A")]].

(** Dash or blank: the characters line 14 removes. *)
Definition dash_or_blank (c : ascii) : bool :=
  Ascii.eqb c "-" || Ascii.eqb c " ".

(* ------------------------------------------------------------------ *)
(** ** Column labels (app.py, line 34) *)

(** The text is ASCII.  The methods [upper], [lower], [strip] and
    [title] are modelled on ASCII text, where they change the letters
    ['a'..'z'] and ['A'..'Z'] only; what Python does on other letters is
    not part of the model. *)
Definition is_ascii (s : string) : bool :=
  Py.all_chars (fun c => (Py.code c <? 128)%nat) s.

(** A cased character of ASCII text: a letter. *)
Definition is_alpha (c : ascii) : bool :=
  let n := Py.code c in
  (((65 <=? n) && (n <=? 90)) || ((97 <=? n) && (n <=? 122)))%nat.

(** [s.title()] on ASCII text: a letter that follows a letter is
    lowercased, any other letter is uppercased; other characters stay. *)
Fixpoint title_from (previous_is_cased : bool) (s : string) : string :=
  match s with
  | EmptyString => EmptyString
  | String c s' =>
      String (if previous_is_cased then Pd.lower_char c else Py.upper_char c)
             (title_from (is_alpha c) s')
  end.

Definition title (s : string) : string := title_from false s.

(** One label through [.str.strip().str.title()]. *)
Definition clean_label (s : string) : string := title (Py.strip s).

(** [df_raw.columns.str.strip().str.title()] *)
Definition clean_labels (cols : list string) : list string :=
  map clean_label cols.

(* ------------------------------------------------------------------ *)
(** ** Critical components (app.py, lines 185-192) *)



(* ------------------------------------------------------------------ *)
(** ** Further reference definitions *)

(** The three tests of lines 49-58 on one row; a choice of "All" lets
    every row pass. *)
Definition section_test (sel : selection) (row : Series) : bool :=
  is_text "All" (selected_section sel)
  || cell_eqb (at_col "Section" row) (selected_section sel).

Definition system_test (sel : selection) (row : Series) : bool :=
  String.eqb (selected_system sel) "All"
  || is_text "A" (at_col (selected_system sel) row).

Definition category_test (sel : selection) (row : Series) : bool :=
  String.eqb (selected_category sel) "All"
  || is_text (selected_category sel) (at_col "Category" row).

Definition passes (sel : selection) (row : Series) : bool :=
  section_test sel row && system_test sel row && category_test sel row.

(** A normalised "Available Up To": missing, or an integer that is not
    negative. *)
Definition stage_or_missing (v : cell) : Prop :=
  v = NaN \/ exists z, (0 <= z)%Z /\ v = Int z.

(** The last character of a text is not a blank (of [str.isspace]). *)
Fixpoint ends_unblank (s : string) : bool :=
  match s with
  | EmptyString => false
  | String c EmptyString => negb (Py.isspace c)
  | String _ s' => ends_unblank s'
  end.

(** A sheet of four components over two Test-Stage columns: the first
    two have neither "S" nor "A", the last two one "S" and one "A"
    each, so that each pair is tied on both counts. *)
Definition stage_pair : list string := ["T1(A/I/F)"; "T2(A/I/F)"].

Definition tied_parts : list Series :=
  [[("Nomenclature", Text "Bolt"); ("T1(A/I/F)", Text "I");
    ("T2(A/I/F)", Text "I")];
   [("Nomenclature", Text "Nut"); ("T1(A/I/F)", Text "I");
    ("T2(A/I/F)", Text "I")];
   [("Nomenclature", Text "Washer"); ("T1(A/I/F)", Text "S");
    ("T2(A/I/F)", Text "A")];
   [("Nomenclature", Text "Gasket"); ("T1(A/I/F)", Text "S");
    ("T2(A/I/F)", Text "A")]].



(** The Bom Qty cells on which a sheet usually relies: an integer, a
    missing value, a text of digits only, or a text of dashes and blanks
    only. *)
Definition plain_quantity (v : cell) : Prop :=
  match v with
  | Int _ | NaN | PyNone => True
  | Text s => Py.isnumeric s = true \/ Py.all_chars dash_or_blank s = true
  end.

(** Such a cell holds a quantity: an integer or a text of digits. *)
Definition holds_quantity (v : cell) : bool :=
  match v with
  | Int _ => true
  | Text s => Py.isnumeric s
  | NaN | PyNone => false
  end.

(* ================================================================== *)
(** * Properties *)

(* ------------------------------------------------------------------ *)
(** ** Text *)

Lemma all_chars_lstrip (blank p : ascii -> bool) (s : string) :
  Py.all_chars p s = true -> Py.all_chars p (Py.lstrip_of blank s) = true.
Proof.
  induction s as [|c s IH]; simpl; intros H; [reflexivity|].
  apply andb_true_iff in H as [Hc Hs].
  destruct (blank c); [auto|].
  simpl. now rewrite Hc, Hs.
Qed.

Lemma all_chars_rstrip (blank p : ascii -> bool) (s : string) :
  Py.all_chars p s = true -> Py.all_chars p (Py.rstrip_of blank s) = true.
Proof.
  induction s as [|c s IH]; simpl; intros H; [reflexivity|].
  apply andb_true_iff in H as [Hc Hs].
  specialize (IH Hs).
  destruct (Py.rstrip_of blank s) as [|d t].
  - destruct (blank c); simpl; [reflexivity|now rewrite Hc].
  - simpl in *. now rewrite Hc, IH.
Qed.

Lemma all_chars_strip (p : ascii -> bool) (s : string) :
  Py.all_chars p s = true -> Py.all_chars p (Py.strip s) = true.
Proof.
  intros H. unfold Py.strip, Py.strip_of.
  now apply all_chars_rstrip, all_chars_lstrip.
Qed.

Lemma removed_all_empty (s : string) :
  Py.remove_char " " (Py.remove_char "-" s) = "" <->
  Py.all_chars dash_or_blank s = true.
Proof.
  induction s as [|c s IH]; simpl; [tauto|].
  unfold dash_or_blank at 1.
  destruct (Ascii.eqb c "-") eqn:Hd; simpl.
  - exact IH.
  - destruct (Ascii.eqb c " ") eqn:Hb; simpl; [exact IH|].
    split; discriminate.
Qed.

(* ------------------------------------------------------------------ *)
(** ** Category assignment *)

Lemma scan_unrolled (rs : list Series) (category : option string)
  (categories : list (option string)) :
  fold_left scan_step rs (category, categories) =
  (category_after category rs, categories ++ labels_from category rs).
Proof.
  revert category categories.
  induction rs as [|row rest IH]; intros category categories; simpl.
  - now rewrite app_nil_r.
  - unfold heading_label. destruct (is_heading row); rewrite IH;
      now rewrite <- app_assoc.
Qed.

Lemma categories_of_labels (rs : list Series) :
  categories_of rs = labels_from None rs.
Proof. unfold categories_of, scan. now rewrite scan_unrolled. Qed.

Lemma labels_from_length (category : option string) (rs : list Series) :
  List.length (labels_from category rs) = List.length rs.
Proof.
  revert category. induction rs as [|row rest IH]; intros category; simpl;
    [reflexivity|].
  destruct (is_heading row); simpl; now rewrite IH.
Qed.

Lemma find_snoc {A : Type} (p : A -> bool) (l : list A) (x : A) :
  find p (l ++ [x]) =
  match find p l with
  | Some y => Some y
  | None => if p x then Some x else None
  end.
Proof.
  induction l as [|y l IH]; simpl; [reflexivity|].
  now destruct (p y).
Qed.

(** The label appended for the row at position [k]: nothing for a
    heading, otherwise the label of the nearest heading above, or the
    category the loop started from when there is none. *)
Lemma labels_from_nth (rs : list Series) (category : option string) (k : nat)
  (row : Series) :
  nth_error rs k = Some row ->
  nth_error (labels_from category rs) k =
  Some (if is_heading row then None
        else match last_heading_above rs k with
             | Some h => Some (heading_label h)
             | None => category
             end).
Proof.
  revert category k.
  induction rs as [|r rest IH]; intros category k Hk.
  - destruct k; discriminate.
  - destruct k as [|k]; simpl in Hk.
    + injection Hk as ->. simpl. now destruct (is_heading row).
    + unfold last_heading_above in *. simpl firstn. simpl rev.
      rewrite find_snoc. simpl labels_from.
      destruct (is_heading r) eqn:Hr; simpl nth_error;
        rewrite (IH _ _ Hk);
        now destruct (find is_heading (rev (firstn k rest))).
Qed.

Lemma get_set_same (row : Series) (label : string) (v default : cell) :
  get (set row label v) label default = v.
Proof.
  induction row as [|[l w] rest IH]; simpl.
  - now rewrite String.eqb_refl.
  - destruct (String.eqb l label) eqn:E; simpl; now rewrite E.
Qed.

Lemma get_set_other (row : Series) (label other : string) (v default : cell) :
  String.eqb label other = false ->
  get (set row label v) other default = get row other default.
Proof.
  intros Hne. induction row as [|[l w] rest IH]; simpl.
  - now rewrite Hne.
  - destruct (String.eqb l label) eqn:E; simpl.
    + apply String.eqb_eq in E. subst l. now rewrite Hne.
    + now rewrite IH.
Qed.

Lemma nth_error_set_column (rs : list Series) (values : list cell)
  (label : string) (k : nat) (row : Series) (v : cell) :
  nth_error rs k = Some row ->
  nth_error values k = Some v ->
  nth_error (map (fun rv => set (fst rv) label (snd rv)) (combine rs values)) k
  = Some (set row label v).
Proof.
  revert values k.
  induction rs as [|r rest IH]; intros values k Hr Hv.
  - destruct k; discriminate.
  - destruct values as [|w values]; [destruct k; discriminate|].
    destruct k as [|k]; simpl in *.
    + now injection Hr as ->; injection Hv as ->.
    + now apply IH.
Qed.

Lemma assign_categories_nth (df_raw : DataFrame) (k : nat) (row : Series) :
  nth_error (rows df_raw) k = Some row ->
  nth_error (categories_of (rows df_raw)) k
  = Some (expected_category (rows df_raw) k row) /\
  nth_error (rows (assign_categories df_raw)) k
  = Some (set row "Category"
            (category_cell (expected_category (rows df_raw) k row))).
Proof.
  intros Hk.
  assert (Hc : nth_error (categories_of (rows df_raw)) k
               = Some (expected_category (rows df_raw) k row)).
  { rewrite categories_of_labels, (labels_from_nth _ None _ _ Hk).
    unfold expected_category.
    destruct (is_heading row); [reflexivity|].
    now destruct (last_heading_above (rows df_raw) k). }
  split; [exact Hc|].
  unfold assign_categories, set_column. simpl rows.
  apply nth_error_set_column; [exact Hk|].
  rewrite nth_error_map, Hc. reflexivity.
Qed.

Lemma find_app_none {A : Type} (p : A -> bool) (l1 l2 : list A) :
  Forall (fun x => p x = false) l1 -> find p (l1 ++ l2) = find p l2.
Proof.
  induction 1 as [|x l1 Hx _ IH]; simpl; [reflexivity|].
  now rewrite Hx.
Qed.

Lemma Forall_firstn {A : Type} (P : A -> Prop) (n : nat) (l : list A) :
  Forall P l -> Forall P (firstn n l).
Proof.
  intros H. revert n. induction H as [|x l Hx _ IH]; intros [|n]; simpl;
    constructor; auto.
Qed.

(** Below a heading [h] and before the next one, the nearest heading
    above is [h]. *)
Lemma last_heading_above_block (before data after : list Series) (h : Series)
  (j : nat) :
  is_heading h = true ->
  Forall (fun r => is_heading r = false) data ->
  j <= List.length data ->
  last_heading_above (before ++ h :: data ++ after)
    (List.length before + 1 + j) = Some h.
Proof.
  intros Hh Hdata Hj. unfold last_heading_above.
  rewrite <- Nat.add_assoc, firstn_app_2. simpl firstn.
  rewrite firstn_app.
  replace (j - List.length data) with 0 by lia.
  rewrite firstn_O, app_nil_r, rev_app_distr. simpl rev.
  rewrite <- app_assoc, find_app_none.
  - simpl. now rewrite Hh.
  - apply Forall_rev, Forall_firstn, Hdata.
Qed.

Lemma nth_error_block (before data after : list Series) (h r : Series)
  (j : nat) :
  nth_error data j = Some r ->
  nth_error (before ++ h :: data ++ after) (List.length before + 1 + j) = Some r.
Proof.
  intros Hj.
  rewrite nth_error_app2 by lia.
  replace (List.length before + 1 + j - List.length before) with (S j) by lia.
  simpl. rewrite nth_error_app1; [exact Hj|].
  apply nth_error_Some. congruence.
Qed.

(** C4: after category assignment, a row that is not a heading carries
    the uppercased, trimmed Nomenclature of the most recent heading above
    it in the original order, or no category when no heading precedes it;
    a heading row itself carries no category.  Stated for the list
    [categories] the loop builds and for the "Category" cell of the
    returned frame. *)
Theorem C4_category_is_nearest_heading_above
  (df_raw : DataFrame) (k : nat) (row : Series) :
  nth_error (rows df_raw) k = Some row ->
  nth_error (categories_of (rows df_raw)) k
  = Some (if is_heading row then None
          else option_map (fun h => Py.upper (nomenclature_of h))
                 (last_heading_above (rows df_raw) k)) /\
  exists row',
    nth_error (rows (assign_categories df_raw)) k = Some row' /\
    at_col "Category" row'
    = if is_heading row then PyNone
      else match last_heading_above (rows df_raw) k with
           | Some h => Text (Py.upper (nomenclature_of h))
           | None => PyNone
           end.
Proof.
  intros Hk.
  destruct (assign_categories_nth df_raw k row Hk) as [Hc Hr].
  split; [exact Hc|].
  eexists. split; [exact Hr|].
  unfold at_col. rewrite get_set_same. unfold expected_category.
  destruct (is_heading row); [reflexivity|].
  now destruct (last_heading_above (rows df_raw) k).
Qed.

(** C8: a row whose Bom Qty text is empty once dashes and blanks are
    removed is a category heading: the test of line 14 takes the heading
    branch, and in every table the row gets no category of its own.  The
    texts "--", "  " and "- -" are such texts. *)
Theorem C8_dash_blank_bom_qty_is_heading (row : Series) :
  Py.remove_char " " (Py.remove_char "-" (str (get row "Bom Qty" (Text "")))) = "" ->
  is_heading row = true /\
  (forall rs k, nth_error rs k = Some row ->
                nth_error (categories_of rs) k = Some None) /\
  (forall rs, categories_of (rs ++ [row])
              = categories_of rs ++ [None]) .
Proof.
  intros H.
  assert (Hh : is_heading row = true).
  { unfold is_heading, bom_qty_digits, bom_qty_of.
    apply removed_all_empty in H.
    apply (all_chars_strip dash_or_blank) in H.
    apply removed_all_empty in H. now rewrite H. }
  split; [exact Hh|]. split.
  - intros rs k Hk.
    rewrite categories_of_labels, (labels_from_nth _ None _ _ Hk).
    now rewrite Hh.
  - intros rs. unfold categories_of, scan.
    rewrite fold_left_app. simpl.
    destruct (fold_left scan_step rs (None, [])) as [c cs].
    simpl. now rewrite Hh.
Qed.

Lemma C8_dash_blank_bom_qty_is_heading_witness :
  is_heading [("Nomenclature", Text "Engine"); ("Bom Qty", Text "- -")] = true /\
  is_heading [("Nomenclature", Text "Engine"); ("Bom Qty", Text "--")] = true /\
  is_heading [("Nomenclature", Text "Engine"); ("Bom Qty", Text "  ")] = true.
Proof.
  split; [|split].
  - exact (proj1 (C8_dash_blank_bom_qty_is_heading
             [("Nomenclature", Text "Engine"); ("Bom Qty", Text "- -")]
             eq_refl)).
  - exact (proj1 (C8_dash_blank_bom_qty_is_heading
             [("Nomenclature", Text "Engine"); ("Bom Qty", Text "--")]
             eq_refl)).
  - exact (proj1 (C8_dash_blank_bom_qty_is_heading
             [("Nomenclature", Text "Engine"); ("Bom Qty", Text "  ")]
             eq_refl)).
Defined.

(** C10: a heading row whose Nomenclature is missing sets the current
    category to "NAN", the uppercased text form of the missing value, and
    every data row below it, up to the next heading, gets the category
    "NAN": in the list [categories] and in the "Category" cell of the
    returned frame. *)
Theorem C10_missing_nomenclature_heading_labels_NAN
  (cols : list string) (before data after : list Series) (h : Series) :
  is_heading h = true ->
  get h "Nomenclature" (Text "") = NaN ->
  Forall (fun r => is_heading r = false) data ->
  fst (scan (before ++ [h])) = Some "NAN" /\
  forall j r,
    nth_error data j = Some r ->
    let rs := before ++ h :: data ++ after in
    let k := List.length before + 1 + j in
    nth_error (categories_of rs) k = Some (Some "NAN") /\
    nth_error (rows (assign_categories (mkFrame cols rs))) k
    = Some (set r "Category" (Text "NAN")).
Proof.
  intros Hh Hnom Hdata.
  assert (Hlabel : heading_label h = "NAN").
  { unfold heading_label, nomenclature_of. now rewrite Hnom. }
  split.
  - unfold scan. rewrite fold_left_app. simpl.
    destruct (fold_left scan_step before (None, [])) as [c cs].
    simpl. rewrite Hh. simpl. now rewrite <- Hlabel.
  - intros j r Hj rs k.
    assert (Hk : nth_error rs k = Some r) by now apply nth_error_block.
    assert (Hr : is_heading r = false).
    { rewrite Forall_forall in Hdata. eapply Hdata, nth_error_In, Hj. }
    assert (Hjl : j <= List.length data).
    { apply Nat.lt_le_incl, nth_error_Some. congruence. }
    destruct (assign_categories_nth (mkFrame cols rs) k r Hk) as [Hc Hf].
    simpl rows in Hc, Hf. unfold expected_category in Hc, Hf.
    rewrite Hr in Hc, Hf.
    subst rs k.
    rewrite (last_heading_above_block before data after h j Hh Hdata Hjl)
      in Hc, Hf.
    simpl in Hc, Hf. rewrite Hlabel in Hc, Hf. now split.
Qed.

Lemma C4_category_is_nearest_heading_above_witness :
  nth_error
    (categories_of
       [[("Nomenclature", Text " Engine "); ("Bom Qty", Text "-")];
        [("Nomenclature", Text "Bolt"); ("Bom Qty", Int 2)]]) 1
  = Some (Some "ENGINE").
Proof.
  exact (proj1 (C4_category_is_nearest_heading_above
                  (mkFrame ["Nomenclature"; "Bom Qty"]
                     [[("Nomenclature", Text " Engine "); ("Bom Qty", Text "-")];
                      [("Nomenclature", Text "Bolt"); ("Bom Qty", Int 2)]])
                  1 [("Nomenclature", Text "Bolt"); ("Bom Qty", Int 2)]
                  eq_refl)).
Defined.

Lemma C10_missing_nomenclature_heading_labels_NAN_witness :
  nth_error
    (categories_of
       [[("Nomenclature", NaN); ("Bom Qty", NaN)];
        [("Nomenclature", Text "Bolt"); ("Bom Qty", Int 2)]]) 1
  = Some (Some "NAN").
Proof.
  refine (proj1 (proj2 (C10_missing_nomenclature_heading_labels_NAN
                          ["Nomenclature"; "Bom Qty"] []
                          [[("Nomenclature", Text "Bolt"); ("Bom Qty", Int 2)]] []
                          [("Nomenclature", NaN); ("Bom Qty", NaN)]
                          eq_refl eq_refl _)
                        0 [("Nomenclature", Text "Bolt"); ("Bom Qty", Int 2)]
                        eq_refl)).
  constructor; [reflexivity | constructor].
Defined.

(* ------------------------------------------------------------------ *)
(** ** Row filtering *)

Lemma filter_idempotent {A : Type} (p : A -> bool) (l : list A) :
  filter p (filter p l) = filter p l.
Proof.
  induction l as [|x l IH]; simpl; [reflexivity|].
  destruct (p x) eqn:E; simpl; [rewrite E|]; now rewrite IH.
Qed.

(** C9: dropping the heading rows (keeping the rows whose Bom Qty reads
    as a number) a second time changes nothing. *)
Theorem C9_drop_heading_rows_idempotent (df : DataFrame) :
  where_rows bom_qty_is_number (where_rows bom_qty_is_number df)
  = where_rows bom_qty_is_number df /\
  drop_heading_rows (drop_heading_rows (rows df)) = drop_heading_rows (rows df).
Proof.
  unfold where_rows, drop_heading_rows. simpl.
  now rewrite filter_idempotent.
Qed.

(** C1 (evaluation at the diverging rows): the heading test of line 14
    and the filter of line 62 disagree.  A row whose Bom Qty is "2.5" is
    taken for a heading by [assign_categories], yet the filter keeps it;
    a row whose Bom Qty is "1 2" is taken for a data row, yet the filter
    drops it.  In the table below the heading-classified row is the only
    one left after filtering, and it carries no category. *)
Theorem C1_heading_test_and_filter_disagree :
  let engine := [("Nomenclature", Text "Engine"); ("Bom Qty", Text "-")] in
  let bolt := [("Nomenclature", Text "Bolt"); ("Bom Qty", Text "2.5")] in
  let nut := [("Nomenclature", Text "Nut"); ("Bom Qty", Text "1 2")] in
  (is_heading bolt = true /\ bom_qty_is_number bolt = true) /\
  (is_heading nut = false /\ bom_qty_is_number nut = false) /\
  categories_of [engine; bolt; nut] = [None; None; Some "BOLT"] /\
  rows (where_rows bom_qty_is_number
          (assign_categories (mkFrame ["Nomenclature"; "Bom Qty"]
                                [engine; bolt; nut])))
  = [[("Nomenclature", Text "Bolt"); ("Bom Qty", Text "2.5");
      ("Category", PyNone)]].
Proof. repeat split. Qed.

(* ------------------------------------------------------------------ *)
(** ** Counting over rows and columns *)

Lemma sum_list_count_plus {B : Type} (q : B -> bool) (f : B -> nat)
  (ys : list B) :
  sum_list (map (fun y => (if q y then 1 else 0) + f y) ys)
  = List.length (filter q ys) + sum_list (map f ys).
Proof.
  induction ys as [|y ys IH]; simpl; [reflexivity|].
  rewrite IH. destruct (q y); simpl; lia.
Qed.

Lemma sum_list_zero {B : Type} (ys : list B) :
  sum_list (map (fun _ => 0) ys) = 0.
Proof. induction ys; simpl; auto. Qed.

(** Counting the marked cells of a table row by row or column by column
    gives the same total. *)
Lemma count_exchange {A B : Type} (p : A -> B -> bool) (xs : list A)
  (ys : list B) :
  sum_list (map (fun x => List.length (filter (p x) ys)) xs)
  = sum_list (map (fun y => List.length (filter (fun x => p x y) xs)) ys).
Proof.
  induction xs as [|x xs IH]; simpl.
  - now rewrite sum_list_zero.
  - rewrite IH, <- sum_list_count_plus.
    f_equal. apply map_ext. intros y. now destruct (p x y).
Qed.

(** C7: over any table, the per-row "Available In" values add up to the
    same number as the per-column totals of "A" over the Test-Stage
    columns (the "Available" entries of the system-wise summary, whose
    sum is the grand total of line 138). *)
Theorem C7_available_in_sum_equals_column_totals
  (test_columns : list string) (rs : list Series) :
  sum_list (map (available_in test_columns) rs)
  = sum_list (map (column_total "A" rs) test_columns) /\
  sum_list (map (available_in test_columns) rs)
  = sum_list (map (fun e => fst (snd e)) (system_availability test_columns rs)) /\
  sum_list (map (available_in test_columns) rs)
  = grand_total "A" test_columns rs.
Proof.
  assert (H : sum_list (map (available_in test_columns) rs)
              = sum_list (map (column_total "A" rs) test_columns)).
  { unfold available_in, count_status, column_total.
    apply (count_exchange (fun row c => is_text "A" (at_col c row))). }
  repeat split; try exact H.
  rewrite H. unfold system_availability. rewrite map_map. reflexivity.
Qed.

(* ------------------------------------------------------------------ *)
(** ** "Available Up To" *)

Lemma digit_char (c : ascii) :
  Py.isdigit c = true ->
  Pd.is_blank c = false /\ Pd.is_sign c = false /\ Pd.lower_char c = c /\
  Ascii.eqb c "i" = false /\ Ascii.eqb c "-" = false.
Proof.
  destruct c as [[] [] [] [] [] [] [] []]; intros H;
    solve [discriminate H | repeat split].
Qed.

Lemma rstrip_no_blank (blank : ascii -> bool) (s : string) :
  Py.all_chars (fun c => negb (blank c)) s = true -> Py.rstrip_of blank s = s.
Proof.
  induction s as [|c s IH]; simpl; intros H; [reflexivity|].
  apply andb_true_iff in H as [Hc Hs].
  rewrite (IH Hs). apply negb_true_iff in Hc. rewrite Hc.
  now destruct s.
Qed.

Lemma all_digits_no_blank (s : string) :
  Py.all_chars Py.isdigit s = true ->
  Py.all_chars (fun c => negb (Pd.is_blank c)) s = true.
Proof.
  induction s as [|c s IH]; simpl; intros H; [reflexivity|].
  apply andb_true_iff in H as [Hc Hs].
  destruct (digit_char c Hc) as [-> _]. simpl. auto.
Qed.

Lemma take_while_all (p : ascii -> bool) (s : string) :
  Py.all_chars p s = true -> Pd.take_while p s = s.
Proof.
  induction s as [|c s IH]; simpl; intros H; [reflexivity|].
  apply andb_true_iff in H as [-> Hs]. now rewrite IH.
Qed.

Lemma drop_while_all (p : ascii -> bool) (s : string) :
  Py.all_chars p s = true -> Pd.drop_while p s = "".
Proof.
  induction s as [|c s IH]; simpl; intros H; [reflexivity|].
  apply andb_true_iff in H as [-> Hs]. now rewrite IH.
Qed.

Lemma take_while_append (p : ascii -> bool) (s t : string) :
  Py.all_chars p s = true ->
  Pd.take_while p (s ++ t)%string = (s ++ Pd.take_while p t)%string.
Proof.
  induction s as [|c s IH]; simpl; intros H; [reflexivity|].
  apply andb_true_iff in H as [-> Hs]. now rewrite IH.
Qed.

Lemma append_empty (s : string) : (s ++ "")%string = s.
Proof. induction s as [|c s IH]; simpl; [reflexivity|now rewrite IH]. Qed.

Lemma strip_digits (ds : string) :
  Py.all_chars Py.isdigit ds = true -> Py.strip_of Pd.is_blank ds = ds.
Proof.
  intros H. unfold Py.strip_of.
  pose proof (all_digits_no_blank _ H) as Hns.
  destruct ds as [|c r]; [reflexivity|].
  simpl in H. apply andb_true_iff in H as [Hc _].
  destruct (digit_char c Hc) as [Hsp _].
  simpl Py.lstrip_of. rewrite Hsp. now apply rstrip_no_blank.
Qed.

Lemma is_infinity_digit (c : ascii) (r : string) :
  Py.isdigit c = true -> Pd.is_infinity (String c r) = false.
Proof.
  intros Hc. destruct (digit_char c Hc) as (_ & _ & Hlow & Hi & _).
  unfold Pd.is_infinity, Pd.lower. simpl Py.map_chars. rewrite Hlow.
  simpl. now rewrite Hi.
Qed.

(** A run of digits reads as the integer it spells. *)
Lemma parse_digits (ds : string) :
  Py.isnumeric ds = true -> Pd.parse ds = Pd.Integral (Py.int_of_digits ds).
Proof.
  destruct ds as [|c r]; [discriminate|].
  unfold Py.isnumeric. intros Hall.
  pose proof Hall as H. simpl in H. apply andb_true_iff in H as [Hc Hr].
  destruct (digit_char c Hc) as (_ & Hsign & _ & _ & Hdash).
  unfold Pd.parse. cbv zeta.
  rewrite (strip_digits _ Hall).
  replace (Pd.drop_sign (String c r)) with (String c r)
    by (unfold Pd.drop_sign; now rewrite Hsign).
  rewrite (is_infinity_digit c r Hc).
  rewrite (take_while_all _ _ Hall), (drop_while_all _ _ Hall).
  simpl. now rewrite Hdash.
Qed.


Lemma extract_digits_run (ds post : string) :
  Py.isnumeric ds = true ->
  starts_with_digit post = false ->
  Pd.extract_digits (ds ++ post)%string = Some ds.
Proof.
  destruct ds as [|c r]; [discriminate|].
  unfold Py.isnumeric. intros H Hpost.
  pose proof H as Hall. simpl in H. apply andb_true_iff in H as [Hc _].
  change (Pd.extract_digits (String c r ++ post)%string)
    with (if Py.isdigit c
          then Some (Pd.take_while Py.isdigit (String c r ++ post)%string)
          else Pd.extract_digits (r ++ post)%string).
  rewrite Hc, (take_while_append _ _ _ Hall).
  destruct post as [|d post]; simpl in Hpost |- *.
  - now rewrite append_empty.
  - rewrite Hpost. now rewrite append_empty.
Qed.




(* ------------------------------------------------------------------ *)
(** ** Rankings *)

Section InsertionSorts.

Variable before : Z -> Z -> bool.
Variable by_ : string.

Hypothesis before_true : forall a b, before a b = true -> (b <= a)%Z.
Hypothesis before_false : forall a b, before a b = false -> (a <= b)%Z.

Let ge_key (a b : Series) : Prop := (key_of by_ b <= key_of by_ a)%Z.

Lemma insert_by_perm (x : Series) (l : list Series) :
  Permutation (insert_by before by_ x l) (x :: l).
Proof.
  induction l as [|y l IH]; simpl; [reflexivity|].
  destruct (before (key_of by_ x) (key_of by_ y)); [reflexivity|].
  rewrite IH. apply perm_swap.
Qed.

Lemma insert_by_hd (x y : Series) (l : list Series) :
  ge_key y x -> HdRel ge_key y l -> HdRel ge_key y (insert_by before by_ x l).
Proof.
  intros Hyx Hl. destruct l as [|z l]; simpl.
  - now constructor.
  - destruct (before (key_of by_ x) (key_of by_ z)); constructor;
      [exact Hyx | now inversion Hl].
Qed.

Lemma insert_by_sorted (x : Series) (l : list Series) :
  Sorted ge_key l -> Sorted ge_key (insert_by before by_ x l).
Proof.
  induction 1 as [|y l Hl IH Hy]; simpl.
  - repeat constructor.
  - destruct (before (key_of by_ x) (key_of by_ y)) eqn:E.
    + constructor; [now constructor|].
      constructor. now apply before_true.
    + constructor; [exact IH|].
      apply insert_by_hd; [|exact Hy]. now apply before_false.
Qed.

Lemma insertion_sort_contract (l : list Series) :
  Permutation (fold_right (insert_by before by_) [] l) l /\
  descending by_ (fold_right (insert_by before by_) [] l).
Proof.
  induction l as [|x l [IHp IHs]]; simpl.
  - split; constructor.
  - split.
    + rewrite insert_by_perm. now constructor.
    + now apply insert_by_sorted.
Qed.

End InsertionSorts.

Lemma stable_sort_desc_contract : sorts_descending stable_sort_desc.
Proof.
  intros by_ l. apply insertion_sort_contract; intros a b H.
  - apply Z.geb_le in H. lia.
  - rewrite Z.geb_leb in H. apply Z.leb_gt in H. lia.
Qed.

Lemma reversing_sort_desc_contract : sorts_descending reversing_sort_desc.
Proof.
  intros by_ l. apply insertion_sort_contract; intros a b H.
  - rewrite Z.gtb_ltb in H. apply Z.ltb_lt in H. lia.
  - rewrite Z.gtb_ltb in H. apply Z.ltb_ge in H. lia.
Qed.

Lemma descending_strongly (by_ : string) (l : list Series) :
  descending by_ l ->
  StronglySorted (fun a b => (key_of by_ b <= key_of by_ a)%Z) l.
Proof.
  apply Sorted_StronglySorted. intros a b c Hab Hbc. lia.
Qed.

Lemma strongly_sorted_split {A : Type} (R : A -> A -> Prop) (l1 l2 : list A) :
  StronglySorted R (l1 ++ l2) ->
  StronglySorted R l1 /\
  forall x y, In x l1 -> In y l2 -> R x y.
Proof.
  induction l1 as [|a l1 IH]; simpl; intros H.
  - split; [constructor|]. intros x y [].
  - inversion H as [|? ? Hs Ha]; subst.
    destruct (IH Hs) as [IH1 IH2].
    rewrite Forall_app in Ha. destruct Ha as [Ha1 Ha2].
    split; [now constructor|].
    intros x y [<-|Hx] Hy.
    + rewrite Forall_forall in Ha2. now apply Ha2.
    + now apply IH2.
Qed.

Section TopTen.

Variable sort_values_desc : string -> list Series -> list Series.
Hypothesis sort_contract : sorts_descending sort_values_desc.

(** The first ten rows of a descending sort: ordered, as many as there
    are (at most ten), and no row left out has a larger key. *)
Lemma top_ten (by_ : string) (l : list Series) :
  let top := firstn 10 (sort_values_desc by_ l) in
  let rest := skipn 10 (sort_values_desc by_ l) in
  descending by_ top /\
  List.length top = Nat.min 10 (List.length l) /\
  Permutation (top ++ rest) l /\
  (forall x y, In x top -> In y rest -> (key_of by_ y <= key_of by_ x)%Z).
Proof.
  intros top rest. subst top rest.
  destruct (sort_contract by_ l) as [Hperm Hsorted].
  apply descending_strongly in Hsorted.
  rewrite <- (firstn_skipn 10 (sort_values_desc by_ l)) in Hsorted.
  apply strongly_sorted_split in Hsorted as [Htop Hrest].
  repeat split.
  - now apply StronglySorted_Sorted.
  - rewrite length_firstn. now rewrite (Permutation_length Hperm).
  - now rewrite firstn_skipn.
  - exact Hrest.
Qed.

End TopTen.

(** C5 (as the code has it): in the status table every component's Short
    Count is the number of "S" and its Available Count the number of "A"
    among its Test-Stage fields, and each top-10 table, like the table of
    the components used in most systems, holds the ten largest rows in
    non-increasing order of its count.  The order among equal counts is
    whatever the sorting kind of the library leaves. *)
Theorem C5_top_tables_count_and_rank
  (sort_values_desc : string -> list Series -> list Series)
  (test_columns : list string) (rs : list Series) :
  sorts_descending sort_values_desc ->
  (forall row,
      status_row test_columns row
      = [("Component", at_col "Nomenclature" row);
         ("Short Count",
           Int (Z.of_nat (List.length
                  (filter (fun c => is_text "S" (at_col c row)) test_columns))));
         ("Available Count",
           Int (Z.of_nat (List.length
                  (filter (fun c => is_text "A" (at_col c row)) test_columns))))]) /\
  top_ten_of "Short Count" (status_counts test_columns rs)
    (top_short sort_values_desc test_columns rs) /\
  top_ten_of "Available Count" (status_counts test_columns rs)
    (top_available sort_values_desc test_columns rs) /\
  top_ten_of "Available In" rs (top_multiuse sort_values_desc rs).
Proof.
  intros Hsort.
  assert (Htop : forall by_ l,
             top_ten_of by_ l (firstn 10 (sort_values_desc by_ l))).
  { intros by_ l.
    destruct (top_ten sort_values_desc Hsort by_ l) as (H1 & H2 & H3 & H4).
    repeat split; [exact H1 | exact H2 |].
    exists (skipn 10 (sort_values_desc by_ l)). now split. }
  split; [reflexivity|].
  repeat split; apply Htop.
Qed.

Lemma C5_top_tables_count_and_rank_witness :
  top_ten_of "Short Count"
    (status_counts ["T1(A/I/F)"]
       [[("Nomenclature", Text "Bolt"); ("T1(A/I/F)", Text "A")];
        [("Nomenclature", Text "Nut"); ("T1(A/I/F)", Text "S")]])
    (top_short stable_sort_desc ["T1(A/I/F)"]
       [[("Nomenclature", Text "Bolt"); ("T1(A/I/F)", Text "A")];
        [("Nomenclature", Text "Nut"); ("T1(A/I/F)", Text "S")]]).
Proof.
  exact (proj1 (proj2 (C5_top_tables_count_and_rank stable_sort_desc
                         ["T1(A/I/F)"]
                         [[("Nomenclature", Text "Bolt"); ("T1(A/I/F)", Text "A")];
                          [("Nomenclature", Text "Nut"); ("T1(A/I/F)", Text "S")]]
                         stable_sort_desc_contract))).
Defined.

(** C5 as the specification words it does not hold: [sort_values] is
    called with its default kind, which keeps no order among equal
    counts.  On a sheet of four components, two without any "S" or "A"
    followed by two with one "S" and one "A" each, a descending sort
    within what that kind guarantees gives both tables as Gasket, Washer,
    Nut, Bolt: each tied pair in the opposite of its order in the
    sheet. *)
Lemma C5_stable_ties_counterexample :
  map (at_col "Component")
    (top_short reversing_sort_desc stage_pair tied_parts)
  = [Text "Gasket"; Text "Washer"; Text "Nut"; Text "Bolt"] /\
  map (at_col "Component")
    (top_available reversing_sort_desc stage_pair tied_parts)
  = [Text "Gasket"; Text "Washer"; Text "Nut"; Text "Bolt"] /\
  ~ (forall sort_values_desc : string -> list Series -> list Series,
        sorts_descending sort_values_desc ->
        forall test_columns rs,
          top_short sort_values_desc test_columns rs
          = firstn 10 (stable_sort_desc "Short Count"
                         (status_counts test_columns rs)) \/
          top_available sort_values_desc test_columns rs
          = firstn 10 (stable_sort_desc "Available Count"
                         (status_counts test_columns rs))).
Proof.
  split; [reflexivity|split; [reflexivity|]].
  intros H.
  destruct (H reversing_sort_desc reversing_sort_desc_contract
              stage_pair tied_parts)
    as [Hshort | Havailable].
  - vm_compute in Hshort. discriminate Hshort.
  - vm_compute in Havailable. discriminate Havailable.
Qed.

(* ------------------------------------------------------------------ *)
(** ** Runs of the script *)

Lemma fst_bind {A B : Type} (m : M A) (k : A -> M B) :
  fst (bind m k)
  = fst m ++ match snd m with
             | Ok a => fst (k a)
             | Raise _ => []
             end.
Proof.
  destruct m as [shown [a|e]]; simpl.
  - now destruct (k a).
  - now rewrite app_nil_r.
Qed.

Lemma snd_bind {A B : Type} (m : M A) (k : A -> M B) :
  snd (bind m k)
  = match snd m with
    | Ok a => snd (k a)
    | Raise e => Raise e
    end.
Proof.
  destruct m as [shown [a|e]]; simpl; [|reflexivity].
  now destruct (k a).
Qed.

Section ShowsOnly.

Variable ok : element -> bool.

Lemma shows_only_bind {A B : Type} (m : M A) (k : A -> M B) :
  shows_only ok m -> (forall a, shows_only ok (k a)) ->
  shows_only ok (bind m k).
Proof.
  unfold shows_only. intros Hm Hk.
  rewrite fst_bind, forallb_app, Hm.
  destruct (snd m); simpl; auto.
Qed.

Lemma shows_only_emit (e : element) : ok e = true -> shows_only ok (emit e).
Proof. unfold shows_only. simpl. now intros ->. Qed.

Lemma shows_only_ret {A : Type} (a : A) : shows_only ok (ret a).
Proof. reflexivity. Qed.

Lemma shows_only_raise {A : Type} (e : exn) : shows_only ok (@raise A e).
Proof. reflexivity. Qed.

Lemma shows_only_column (df : DataFrame) (label : string) :
  shows_only ok (column df label).
Proof. unfold column. now destruct (has_column df label). Qed.

Lemma shows_only_sorted (l : list cell) : shows_only ok (sorted l).
Proof.
  unfold sorted. now destruct (mixed l).
Qed.

Lemma shows_only_select (df : DataFrame) (labels : list string) :
  shows_only ok (select df labels).
Proof.
  unfold select.
  now destruct (filter (fun l => negb (has_column df l)) labels).
Qed.

Lemma shows_only_filter (is_all : bool) (label : string)
  (keep : Series -> bool) (df : DataFrame) :
  shows_only ok (filter_unless_all is_all label keep df).
Proof.
  unfold filter_unless_all. destruct (negb is_all); [|reflexivity].
  apply shows_only_bind; [apply shows_only_column|reflexivity].
Qed.

End ShowsOnly.

(** Walks through the binds of a phase of the script; what is left are
    the tests of the elements it shows. *)
(** The labels of a concrete sheet are pairwise distinct. *)
Ltac distinct_labels :=
  repeat (apply NoDup_cons; [cbn; intuition discriminate|]); apply NoDup_nil.

Ltac walk :=
  repeat first
    [ apply shows_only_bind; [|intros ?]
    | apply shows_only_column
    | apply shows_only_sorted
    | apply shows_only_select
    | apply shows_only_filter
    | apply shows_only_ret
    | apply shows_only_emit; reflexivity
    | progress cbv zeta ].

Lemma prepare_shows_plain (phrase : string) (sel : selection)
  (df_raw : DataFrame) :
  plain phrase (header "🔎 Filter Options") = true ->
  plain phrase (subheader "Preview of Cleaned Data") = true ->
  shows_only (plain phrase) (prepare sel df_raw).
Proof.
  intros Hheader Hpreview.
  unfold prepare, sidebar, apply_filters, clean. walk;
    now apply shows_only_emit.
Qed.

(** Unfolds the result of a phase along its binds. *)
Ltac run :=
  repeat first [rewrite snd_bind | progress cbn [snd emit ret raise]].

Lemma column_present (df : DataFrame) (label : string) :
  has_column df label = true ->
  column df label = ret (map (at_col label) (rows df)).
Proof. unfold column. now intros ->. Qed.

Lemma column_absent (df : DataFrame) (label : string) :
  has_column df label = false ->
  column df label = raise (KeyError [label]).
Proof. unfold column. now intros ->. Qed.

Lemma sorted_unmixed (l : list cell) :
  mixed l = false -> sorted l = ret (fold_right insert_cell [] l).
Proof. unfold sorted. now intros ->. Qed.

Lemma sidebar_without_section (df : DataFrame) :
  has_column df "Section" = false ->
  snd (sidebar df) = Raise (KeyError ["Section"]).
Proof.
  intros H. unfold sidebar. run. now rewrite (column_absent _ _ H).
Qed.

Lemma sidebar_runs (df : DataFrame) :
  has_column df "Section" = true ->
  has_column df "Category" = true ->
  mixed (unique (filter notna (map (at_col "Section") (rows df)))) = false ->
  mixed (unique (filter notna (map (at_col "Category") (rows df)))) = false ->
  snd (sidebar df) = Ok tt.
Proof.
  intros Hs Hc Hms Hmc. unfold sidebar. run.
  rewrite (column_present _ _ Hs). cbn [snd ret].
  rewrite (sorted_unmixed _ Hms). run.
  rewrite (column_present _ _ Hc). cbn [snd ret].
  rewrite (sorted_unmixed _ Hmc). run. reflexivity.
Qed.

Lemma filter_unless_all_runs (is_all : bool) (label : string)
  (keep : Series -> bool) (df : DataFrame) :
  is_all || has_column df label = true ->
  exists df',
    snd (filter_unless_all is_all label keep df) = Ok df' /\
    columns df' = columns df.
Proof.
  intros H. unfold filter_unless_all.
  destruct is_all; simpl in *.
  - now exists df.
  - run. rewrite (column_present _ _ H). cbn [snd ret].
    now exists (where_rows keep df).
Qed.

Lemma has_column_same (df df' : DataFrame) (label : string) :
  columns df' = columns df -> has_column df' label = has_column df label.
Proof. unfold has_column. now intros ->. Qed.

Lemma apply_filters_runs (sel : selection) (df : DataFrame) :
  has_column df "Section" = true ->
  has_column df "Category" = true ->
  valid_system sel df = true ->
  exists df',
    snd (apply_filters sel df) = Ok df' /\ columns df' = columns df.
Proof.
  intros Hs Hc Hv. unfold apply_filters.
  destruct (filter_unless_all_runs
              (is_text "All" (selected_section sel)) "Section"
              (fun r => cell_eqb (at_col "Section" r) (selected_section sel)) df)
    as (df1 & E1 & C1); [rewrite Hs; apply orb_true_r|].
  rewrite snd_bind, E1.
  destruct (filter_unless_all_runs
              (String.eqb (selected_system sel) "All") (selected_system sel)
              (fun r => is_text "A" (at_col (selected_system sel) r)) df1)
    as (df2 & E2 & C2).
  { rewrite (has_column_same _ _ _ C1). exact Hv. }
  rewrite snd_bind, E2.
  destruct (filter_unless_all_runs
              (String.eqb (selected_category sel) "All") "Category"
              (fun r => is_text (selected_category sel) (at_col "Category" r)) df2)
    as (df3 & E3 & C3).
  { rewrite (has_column_same df df2); [rewrite Hc; apply orb_true_r|].
    now rewrite C2. }
  exists df3. split; [exact E3|]. now rewrite C3, C2.
Qed.

Lemma add_label_present (cols : list string) (label : string) :
  existsb (String.eqb label) cols = true -> add_label cols label = cols.
Proof. unfold add_label. now intros ->. Qed.

Lemma clean_without_bom_qty (df : DataFrame) :
  has_column df "Bom Qty" = false ->
  snd (clean df) = Raise (KeyError ["Bom Qty"]).
Proof.
  intros H. unfold clean. run. now rewrite (column_absent _ _ H).
Qed.

Lemma clean_without_available_up_to (df : DataFrame) :
  has_column df "Bom Qty" = true ->
  has_column df "Available Up To" = false ->
  snd (clean df) = Raise (KeyError ["Available Up To"]).
Proof.
  intros Hb Ha. unfold clean. run.
  rewrite (column_present _ _ Hb). cbn [snd ret]. cbv zeta. run.
  rewrite column_absent; [reflexivity|exact Ha].
Qed.

Lemma clean_without_preview_column (df : DataFrame) (m : string)
  (ms : list string) :
  has_column df "Bom Qty" = true ->
  has_column df "Available Up To" = true ->
  filter (fun l => negb (has_column df l)) required_preview = m :: ms ->
  snd (clean df) = Raise (KeyError (m :: ms)).
Proof.
  intros Hb Ha Hm. unfold clean. run.
  rewrite (column_present _ _ Hb). cbn [snd ret]. cbv zeta. run.
  rewrite column_present; [|exact Ha]. cbn [snd ret]. run.
  unfold select.
  replace (filter _ required_preview) with (m :: ms); [reflexivity|].
  rewrite <- Hm. apply filter_ext. intros l. f_equal.
  unfold has_column, set_column. cbn [columns where_rows].
  now rewrite add_label_present.
Qed.

Lemma has_column_set_column (df : DataFrame) (label : string)
  (values : list cell) (other : string) :
  has_column (set_column df label values) other
  = has_column df other || String.eqb other label.
Proof.
  unfold has_column, set_column. cbn [columns].
  unfold add_label.
  destruct (existsb (String.eqb label) (columns df)) eqn:E.
  - destruct (String.eqb other label) eqn:El.
    + apply String.eqb_eq in El. subst other. now rewrite E.
    + now rewrite orb_false_r.
  - rewrite existsb_app. simpl. now rewrite orb_false_r.
Qed.

Lemma has_column_assign (df_raw : DataFrame) (label : string) :
  has_column (assign_categories df_raw) label
  = existsb (String.eqb label) (columns df_raw) || String.eqb label "Category".
Proof. apply has_column_set_column. Qed.

Lemma set_column_other (rs : list Series) (values : list cell)
  (label other : string) :
  String.eqb label other = false ->
  List.length values = List.length rs ->
  map (at_col other)
      (map (fun rv => set (fst rv) label (snd rv)) (combine rs values))
  = map (at_col other) rs.
Proof.
  intros Hne. revert values.
  induction rs as [|r rs IH]; intros [|v values] Hlen; try discriminate;
    simpl; [reflexivity|].
  unfold at_col at 1. rewrite (get_set_other _ _ _ _ _ Hne).
  f_equal. apply IH. now injection Hlen.
Qed.

Lemma set_column_values (rs : list Series) (values : list cell)
  (label : string) :
  List.length values = List.length rs ->
  map (at_col label)
      (map (fun rv => set (fst rv) label (snd rv)) (combine rs values))
  = values.
Proof.
  revert values.
  induction rs as [|r rs IH]; intros [|v values] Hlen; try discriminate;
    simpl; [reflexivity|].
  unfold at_col at 1. rewrite get_set_same.
  f_equal. apply IH. now injection Hlen.
Qed.

Lemma categories_of_length (rs : list Series) :
  List.length (map category_cell (categories_of rs)) = List.length rs.
Proof.
  now rewrite length_map, categories_of_labels, labels_from_length.
Qed.

Lemma existsb_incl {A : Type} (p : A -> bool) (l1 l2 : list A) :
  incl l1 l2 -> existsb p l2 = false -> existsb p l1 = false.
Proof.
  intros Hincl H2. destruct (existsb p l1) eqn:E; [|reflexivity].
  apply existsb_exists in E as (x & Hin & Hp).
  assert (H : existsb p l2 = true).
  { apply existsb_exists. exists x. split; [now apply Hincl | exact Hp]. }
  congruence.
Qed.

Lemma unique_incl (l : list cell) : incl (unique l) l.
Proof.
  induction l as [|v l IH]; simpl; [apply incl_refl|].
  intros x [<-|Hx]; [now left|].
  right. apply IH. apply filter_In in Hx. tauto.
Qed.

Lemma mixed_incl (l1 l2 : list cell) :
  incl l1 l2 -> mixed l2 = false -> mixed l1 = false.
Proof.
  unfold mixed. intros Hincl H.
  apply andb_false_iff in H as [H|H];
    rewrite (existsb_incl _ _ _ Hincl H); [reflexivity|apply andb_false_r].
Qed.

Lemma options_unmixed (l : list cell) :
  mixed l = false -> mixed (unique (filter notna l)) = false.
Proof.
  apply mixed_incl.
  eapply incl_tran; [apply unique_incl | apply incl_filter].
Qed.

Lemma categories_unmixed (cs : list (option string)) :
  mixed (map category_cell cs) = false.
Proof.
  unfold mixed.
  replace (existsb is_Int (map category_cell cs)) with false;
    [apply andb_false_r|].
  induction cs as [|[c|] cs IH]; simpl; auto.
Qed.

Lemma plain_shown (phrase : string) (shown : list element) :
  forallb (plain phrase) shown = true ->
  existsb is_metric shown = false /\ reports phrase shown = false.
Proof.
  unfold reports.
  induction shown as [|e shown IH]; simpl; [auto|].
  intros H. apply andb_true_iff in H as [He Hs].
  destruct (IH Hs) as [-> ->].
  unfold plain in He. apply andb_true_iff in He as [Hm Hp].
  apply negb_true_iff in Hm, Hp. now rewrite Hm, Hp.
Qed.

(** The sidebar of a frame that has a sortable Section column, after
    category assignment. *)
Lemma sidebar_after_assign (df_raw : DataFrame) :
  existsb (String.eqb "Section") (columns df_raw) = true ->
  section_sortable df_raw = true ->
  snd (sidebar (assign_categories df_raw)) = Ok tt.
Proof.
  intros Hs Hsort.
  pose proof (categories_of_length (rows df_raw)) as Hlen.
  apply sidebar_runs.
  - now rewrite has_column_assign, Hs.
  - rewrite has_column_assign. apply orb_true_r.
  - apply options_unmixed.
    unfold assign_categories, set_column. cbn [rows].
    rewrite set_column_other; [|reflexivity|exact Hlen].
    unfold section_sortable in Hsort. now apply negb_true_iff in Hsort.
  - apply options_unmixed.
    unfold assign_categories, set_column. cbn [rows].
    rewrite set_column_values; [|exact Hlen].
    apply categories_unmixed.
Qed.

Lemma first_missing_sound (cols : list string) :
  missing_required cols <> [] ->
  first_missing cols <> [] /\ incl (first_missing cols) (missing_required cols).
Proof.
  unfold missing_required, first_missing, required_columns. cbn [filter].
  destruct (existsb (String.eqb "Section") cols),
           (existsb (String.eqb "Nomenclature") cols),
           (existsb (String.eqb "Bom Qty") cols),
           (existsb (String.eqb "Stock") cols),
           (existsb (String.eqb "Available Up To") cols);
    cbn [negb filter]; intros H; split;
    try discriminate; try (now contradiction H);
    intros x Hx; simpl in Hx |- *; tauto.
Qed.

(** With a required column absent, the run stops in [prepare], at the
    first of the columns it reads that is not there. *)
Lemma prepare_stops (sel : selection) (df_raw : DataFrame) :
  missing_required (columns df_raw) <> [] ->
  section_sortable df_raw = true ->
  valid_system sel df_raw = true ->
  snd (prepare sel df_raw) = Raise (KeyError (first_missing (columns df_raw))).
Proof.
  intros Hmissing Hsort Hvalid.
  unfold prepare. cbv zeta. rewrite snd_bind.
  unfold first_missing. cbv zeta.
  destruct (existsb (String.eqb "Section") (columns df_raw)) eqn:ES;
    cbn [negb].
  2: { rewrite sidebar_without_section; [reflexivity|].
       now rewrite has_column_assign, ES. }
  rewrite (sidebar_after_assign _ ES Hsort), snd_bind.
  destruct (apply_filters_runs sel (assign_categories df_raw))
    as (df & E & C).
  { now rewrite has_column_assign, ES. }
  { rewrite has_column_assign. apply orb_true_r. }
  { unfold valid_system in *. rewrite has_column_assign.
    destruct (String.eqb (selected_system sel) "All"); [reflexivity|].
    simpl in Hvalid. unfold has_column in Hvalid. now rewrite Hvalid. }
  rewrite E.
  assert (Hcol : forall l, String.eqb l "Category" = false ->
                           has_column df l = existsb (String.eqb l) (columns df_raw)).
  { intros l Hl.
    rewrite (has_column_same _ _ _ C), has_column_assign, Hl.
    apply orb_false_r. }
  assert (Hcat : has_column df "Category" = true).
  { rewrite (has_column_same _ _ _ C), has_column_assign. apply orb_true_r. }
  destruct (existsb (String.eqb "Bom Qty") (columns df_raw)) eqn:EB;
    cbn [negb].
  2: { apply clean_without_bom_qty. now rewrite Hcol. }
  destruct (existsb (String.eqb "Available Up To") (columns df_raw)) eqn:EA;
    cbn [negb].
  2: { apply clean_without_available_up_to; now rewrite Hcol. }
  assert (Hpreview :
            filter (fun l => negb (has_column df l)) required_preview
            = filter (fun l => negb (existsb (String.eqb l) (columns df_raw)))
                ["Nomenclature"; "Stock"]).
  { unfold required_preview. cbn [filter].
    rewrite Hcat, !Hcol, ES, EB by reflexivity. reflexivity. }
  destruct (filter (fun l => negb (existsb (String.eqb l) (columns df_raw)))
              ["Nomenclature"; "Stock"]) as [|m ms] eqn:EP.
  - exfalso. apply Hmissing.
    unfold missing_required, required_columns.
    cbn [filter] in EP |- *. rewrite ES, EB, EA. cbn [negb].
    destruct (existsb (String.eqb "Nomenclature") (columns df_raw)),
             (existsb (String.eqb "Stock") (columns df_raw));
      cbn [negb] in EP |- *; try discriminate EP; reflexivity.
  - apply clean_without_preview_column; try (now rewrite Hcol).
    exact Hpreview.
Qed.

Lemma key_error_text_plain (cols : list string) :
  missing_required cols <> [] ->
  plain "required column not found"
    (exception (exn_text (KeyError (first_missing cols)))) = true.
Proof.
  unfold missing_required, first_missing, required_columns. cbn [filter].
  destruct (existsb (String.eqb "Section") cols),
           (existsb (String.eqb "Nomenclature") cols),
           (existsb (String.eqb "Bom Qty") cols),
           (existsb (String.eqb "Stock") cols),
           (existsb (String.eqb "Available Up To") cols);
    cbn [negb filter]; intros H;
    solve [reflexivity | now contradiction H].
Qed.

(** C2 (as the code has it): when the uploaded sheet lacks a column the
    analysis reads, the run stops, before any aggregation, in a key error
    that names the first absent column in the order the script reads
    them: Section, then Bom Qty, then Available Up To, then Nomenclature
    and Stock together.  The labels named are absent required columns.
    The page shows no metric and nothing that says "required column not
    found", only what the sidebar and the preview heading put there and
    the exception.  (Assumed: no two columns of the sheet carry the same
    label once the labels are cleaned, the Section selector could be built
    and the chosen System Type is one the sidebar offers.) *)
Theorem C2_missing_column_stops_in_key_error
  (sort_values_desc : string -> list Series -> list Series)
  (sel : selection) (df_raw : DataFrame) :
  NoDup (columns df_raw) ->
  missing_required (columns df_raw) <> [] ->
  section_sortable df_raw = true ->
  valid_system sel df_raw = true ->
  let out := main sort_values_desc sel df_raw in
  snd out = Raise (KeyError (first_missing (columns df_raw))) /\
  first_missing (columns df_raw) <> [] /\
  incl (first_missing (columns df_raw)) (missing_required (columns df_raw)) /\
  existsb is_metric (page out) = false /\
  reports "required column not found" (page out) = false.
Proof.
  intros _ Hmissing Hsort Hvalid out.
  pose proof (prepare_stops sel df_raw Hmissing Hsort Hvalid) as Hstop.
  destruct (first_missing_sound _ Hmissing) as [Hne Hincl].
  assert (Hout : snd out = Raise (KeyError (first_missing (columns df_raw)))).
  { subst out. unfold main. now rewrite snd_bind, Hstop. }
  split; [exact Hout|split; [exact Hne|split; [exact Hincl|]]].
  apply plain_shown. unfold page. rewrite Hout, forallb_app.
  apply andb_true_iff. split.
  - subst out. unfold main. rewrite fst_bind, Hstop, app_nil_r.
    now apply prepare_shows_plain.
  - cbn [forallb]. now rewrite key_error_text_plain.
Qed.

Lemma C2_missing_column_stops_in_key_error_witness :
  snd (main stable_sort_desc (mkSelection (Text "All") "All" "All")
         (mkFrame ["Section"; "Nomenclature"; "Bom Qty"; "Available Up To"]
            [[("Section", Text "X"); ("Nomenclature", Text "Bolt");
              ("Bom Qty", Int 2); ("Available Up To", Text "AP 25")]]))
  = Raise (KeyError ["Stock"]).
Proof.
  refine (proj1 (C2_missing_column_stops_in_key_error stable_sort_desc
                   (mkSelection (Text "All") "All" "All")
                   (mkFrame ["Section"; "Nomenclature"; "Bom Qty"; "Available Up To"]
                      [[("Section", Text "X"); ("Nomenclature", Text "Bolt");
                        ("Bom Qty", Int 2); ("Available Up To", Text "AP 25")]])
                   _ _ eq_refl eq_refl)).
  - distinct_labels.
  - discriminate.
Defined.

(** C2 as the specification words it does not hold: on a sheet without
    the Bom Qty and Stock columns nothing on the page says that a
    required column was not found, and nothing names both absent columns:
    the run ends in the key error for Bom Qty alone. *)
Lemma C2_validation_counterexample :
  ~ (forall (sort_values_desc : string -> list Series -> list Series)
            (sel : selection) (df_raw : DataFrame),
        missing_required (columns df_raw) <> [] ->
        reports "required column not found"
          (page (main sort_values_desc sel df_raw)) = true \/
        names_all (missing_required (columns df_raw))
          (page (main sort_values_desc sel df_raw)) = true).
Proof.
  intros H.
  destruct (H stable_sort_desc (mkSelection (Text "All") "All" "All")
              (mkFrame ["Section"; "Nomenclature"; "Available Up To"]
                 [[("Section", Text "X"); ("Nomenclature", Text "Bolt");
                   ("Available Up To", Text "AP 25")]]))
    as [Hreports | Hnames]; [discriminate| |].
  - vm_compute in Hreports. discriminate Hreports.
  - vm_compute in Hnames. discriminate Hnames.
Qed.

(* ------------------------------------------------------------------ *)
(** ** Frames without Test-Stage columns *)

Lemma set_column_per_row (df : DataFrame) (label : string)
  (f : Series -> cell) :
  rows (set_column df label (map f (rows df)))
  = map (fun r => set r label (f r)) (rows df).
Proof.
  unfold set_column. cbn [rows].
  induction (rows df) as [|r rs IH]; simpl; [reflexivity|].
  now rewrite IH.
Qed.

Lemma filter_all {A : Type} (p : A -> bool) (l : list A) :
  Forall (fun x => p x = true) l -> filter p l = l.
Proof.
  induction 1 as [|x l Hx _ IH]; simpl; [reflexivity|].
  now rewrite Hx, IH.
Qed.

Lemma fst_emit_bind {B : Type} (e : element) (k : unit -> M B) :
  fst (bind (emit e) k) = e :: fst (k tt).
Proof. unfold bind, emit. now destruct (k tt). Qed.

Lemma snd_bind_ok {A B : Type} (m : M A) (k : A -> M B) (b : B) :
  snd (bind m k) = Ok b ->
  exists a, snd m = Ok a /\ snd (k a) = Ok b.
Proof.
  rewrite snd_bind. destruct (snd m) as [a|e]; [|discriminate].
  intros H. now exists a.
Qed.

Lemma filter_unless_all_columns (is_all : bool) (label : string)
  (keep : Series -> bool) (df df' : DataFrame) :
  snd (filter_unless_all is_all label keep df) = Ok df' ->
  columns df' = columns df.
Proof.
  unfold filter_unless_all. destruct (negb is_all).
  - intros H. apply snd_bind_ok in H as (c & _ & H).
    injection H as <-. reflexivity.
  - intros H. injection H as <-. reflexivity.
Qed.

Lemma apply_filters_columns (sel : selection) (df df' : DataFrame) :
  snd (apply_filters sel df) = Ok df' -> columns df' = columns df.
Proof.
  unfold apply_filters. intros H.
  apply snd_bind_ok in H as (df1 & H1 & H).
  apply snd_bind_ok in H as (df2 & H2 & H3).
  apply filter_unless_all_columns in H1, H2, H3. congruence.
Qed.

Lemma column_ok (df : DataFrame) (label : string) (values : list cell) :
  snd (column df label) = Ok values -> has_column df label = true.
Proof. unfold column. now destruct (has_column df label). Qed.

Lemma clean_columns (df df' : DataFrame) :
  snd (clean df) = Ok df' -> columns df' = columns df.
Proof.
  unfold clean. intros H.
  apply snd_bind_ok in H as (bom & _ & H). cbv zeta in H.
  apply snd_bind_ok in H as (aut & Ha & H).
  apply column_ok in Ha.
  apply snd_bind_ok in H as (u & _ & H).
  apply snd_bind_ok in H as (preview & _ & H).
  apply snd_bind_ok in H as (u' & _ & H).
  injection H as <-.
  unfold set_column. cbn [columns]. now apply add_label_present.
Qed.

Lemma prepare_columns (sel : selection) (df_raw df : DataFrame) :
  snd (prepare sel df_raw) = Ok df ->
  columns df = add_label (columns df_raw) "Category".
Proof.
  unfold prepare. cbv zeta. intros H.
  apply snd_bind_ok in H as (u & _ & H).
  apply snd_bind_ok in H as (df1 & H1 & H2).
  apply apply_filters_columns in H1. apply clean_columns in H2.
  rewrite H2, H1. reflexivity.
Qed.

Lemma test_columns_after_prepare (sel : selection) (df_raw df : DataFrame) :
  snd (prepare sel df_raw) = Ok df ->
  test_columns_of (columns df) = test_columns_of (columns df_raw).
Proof.
  intros H. rewrite (prepare_columns _ _ _ H).
  unfold add_label, test_columns_of.
  destruct (existsb (String.eqb "Category") (columns df_raw));
    [reflexivity|].
  rewrite filter_app. simpl. apply app_nil_r.
Qed.

Lemma forallb_negb_existsb {A : Type} (p : A -> bool) (l : list A) :
  forallb (fun x => negb (p x)) l = true -> existsb p l = false.
Proof.
  induction l as [|x l IH]; simpl; [reflexivity|].
  intros H. apply andb_true_iff in H as [Hx Hl].
  apply negb_true_iff in Hx. now rewrite Hx, IH.
Qed.

(** No phase of the script has a message about absent Test-Stage
    columns. *)
Lemma main_never_reports_no_test_columns
  (sort_values_desc : string -> list Series -> list Series)
  (sel : selection) (df_raw : DataFrame) :
  reports "no test-stage columns found"
    (fst (main sort_values_desc sel df_raw)) = false.
Proof.
  apply forallb_negb_existsb.
  change (shows_only
            (fun e => negb (mentions "no test-stage columns found" e))
            (main sort_values_desc sel df_raw)).
  unfold main, prepare, sidebar, apply_filters, clean, metrics, rankings.
  walk.
Qed.

(** The head of what [metrics] shows on a frame without Test-Stage
    columns: every row counts as used in all systems and as used in
    none. *)
Lemma metrics_without_test_columns (df : DataFrame) :
  test_columns_of (columns df) = [] ->
  let n := List.length (rows df) in
  firstn 4 (fst (metrics df))
  = [metric "📦 Total Components" (Count n);
     metric "🔁 Avg Used In Systems" (Mean 0 n);
     metric "✅ Used in All Systems" (Count n);
     metric "❌ Used in None" (Count n)].
Proof.
  intros H n. unfold metrics. cbv zeta. rewrite H.
  rewrite !fst_emit_bind. cbn [firstn where_rows rows].
  rewrite map_map, set_column_per_row.
  assert (Hall : forall v,
             filter (fun r => cell_eqb (at_col "Available In" r) v)
               (map (fun r => set r "Available In"
                                (count_cell (available_in [] r))) (rows df))
             = if cell_eqb (Int 0) v
               then map (fun r => set r "Available In" (Int 0)) (rows df)
               else []).
  { intros v. induction (rows df) as [|r rs IH]; cbn [map filter].
    - now destruct (cell_eqb (Int 0) v).
    - unfold at_col at 1. rewrite get_set_same, IH.
      change (count_cell (available_in [] r)) with (Int 0).
      now destruct (cell_eqb (Int 0) v). }
  rewrite !Hall. cbn [cell_eqb count_cell List.length Z.of_nat Z.eqb].
  rewrite !length_map.
  replace (sum_list (map (available_in []) (rows df))) with 0;
    [reflexivity|].
  symmetry. apply (sum_list_zero (rows df)).
Qed.

Lemma select_ok (df shown : DataFrame) (labels : list string) :
  snd (select df labels) = Ok shown ->
  forall l, In l labels -> has_column df l = true.
Proof.
  unfold select.
  destruct (filter (fun l => negb (has_column df l)) labels) eqn:E;
    [|discriminate].
  intros _ l Hl.
  destruct (has_column df l) eqn:Hc; [reflexivity|].
  assert (Hin : In l (filter (fun l => negb (has_column df l)) labels)).
  { apply filter_In. split; [exact Hl|]. now rewrite Hc. }
  rewrite E in Hin. destruct Hin.
Qed.

Lemma select_present (df : DataFrame) (labels : list string) :
  (forall l, In l labels -> has_column df l = true) ->
  select df labels = ret (mkFrame labels (map (project labels) (rows df))).
Proof.
  intros H. unfold select.
  destruct (filter (fun l => negb (has_column df l)) labels) as [|m ms] eqn:E;
    [reflexivity|].
  assert (Hin : In m (filter (fun l => negb (has_column df l)) labels))
    by (rewrite E; now left).
  apply filter_In in Hin as [Hl Hm].
  rewrite (H m Hl) in Hm. discriminate Hm.
Qed.

Lemma clean_has_nomenclature (df df' : DataFrame) :
  snd (clean df) = Ok df' -> has_column df' "Nomenclature" = true.
Proof.
  unfold clean. intros H.
  apply snd_bind_ok in H as (bom & _ & H). cbv zeta in H.
  apply snd_bind_ok in H as (aut & _ & H).
  apply snd_bind_ok in H as (u & _ & H).
  apply snd_bind_ok in H as (preview & Hp & H).
  apply snd_bind_ok in H as (u' & _ & H).
  injection H as <-.
  apply (select_ok _ _ _ Hp). unfold required_preview. simpl. tauto.
Qed.

Lemma prepare_has_nomenclature (sel : selection) (df_raw df : DataFrame) :
  snd (prepare sel df_raw) = Ok df -> has_column df "Nomenclature" = true.
Proof.
  unfold prepare. cbv zeta. intros H.
  apply snd_bind_ok in H as (u & _ & H).
  apply snd_bind_ok in H as (df1 & _ & H).
  now apply clean_has_nomenclature in H.
Qed.

(** Once the preparation has gone through, so do the metrics and the
    ranked tables. *)
Lemma main_completes
  (sort_values_desc : string -> list Series -> list Series)
  (sel : selection) (df_raw df : DataFrame) :
  snd (prepare sel df_raw) = Ok df ->
  exists final, snd (main sort_values_desc sel df_raw) = Ok final.
Proof.
  intros Hprep.
  pose proof (prepare_has_nomenclature _ _ _ Hprep) as Hnom.
  unfold main. rewrite snd_bind, Hprep.
  unfold metrics. cbv zeta.
  set (counted := set_column df "Available In" _).
  assert (Hshown : forall l, In l ["Nomenclature"; "Available In"] ->
                             has_column counted l = true).
  { intros l [<-|[<-|[]]]; subst counted; rewrite has_column_set_column.
    - now rewrite Hnom.
    - apply orb_true_r. }
  run. rewrite select_present by exact Hshown. run.
  rewrite select_present by exact Hshown. run.
  unfold rankings. run.
  rewrite select_present by exact Hshown. run.
  rewrite column_present by (apply Hshown; now left). run.
  now eexists.
Qed.

(** The run up to the bar chart is the run up to the ranked tables
    followed by the chart of the frame that carries "Available In". *)
Lemma script_after_main
  (sort_values_desc : string -> list Series -> list Series)
  (sel : selection) (df_raw df final : DataFrame) :
  snd (prepare sel df_raw) = Ok df ->
  snd (main sort_values_desc sel df_raw) = Ok final ->
  script sort_values_desc sel df_raw
  = (fst (main sort_values_desc sel df_raw)
       ++ fst (summary_chart final (test_columns_of (columns df))),
     snd (summary_chart final (test_columns_of (columns df)))).
Proof.
  unfold script, main. intros Hprep Hmain.
  destruct (prepare sel df_raw) as [l1 [d|e]]; [|discriminate Hprep].
  injection Hprep as ->.
  cbn [bind] in *.
  destruct (metrics df) as [l2 [[counted tc]|e]] eqn:Em.
  - assert (Htc : tc = test_columns_of (columns df)).
    { assert (H : snd (metrics df) = Ok (counted, tc)) by now rewrite Em.
      unfold metrics in H. cbv zeta in H.
      repeat (apply snd_bind_ok in H as (? & _ & H)).
      now injection H as _ <-. }
    subst tc. cbn [bind fst snd] in *.
    destruct (rankings sort_values_desc counted (test_columns_of (columns df)))
      as [l3 [d|e]]; cbn [bind fst snd] in *; [|discriminate Hmain].
    injection Hmain as ->.
    destruct (summary_chart final (test_columns_of (columns df))) as [l4 r].
    cbn [fst snd]. now rewrite !app_assoc.
  - cbn [bind fst snd] in Hmain. discriminate Hmain.
Qed.

(** A run that stops before the ranked tables are done stops there. *)
Lemma script_stops_with_main
  (sort_values_desc : string -> list Series -> list Series)
  (sel : selection) (df_raw : DataFrame) (e : exn) :
  snd (main sort_values_desc sel df_raw) = Raise e ->
  script sort_values_desc sel df_raw
  = (fst (main sort_values_desc sel df_raw), Raise e).
Proof.
  unfold script, main. intros Hmain.
  destruct (prepare sel df_raw) as [l1 [df|e1]]; cbn [bind fst snd] in *;
    [|now injection Hmain as ->].
  destruct (metrics df) as [l2 [[counted tc]|e2]]; cbn [bind fst snd] in *;
    [|now injection Hmain as ->].
  destruct (rankings sort_values_desc counted tc) as [l3 [d|e3]];
    cbn [bind fst snd] in *; [discriminate Hmain|].
  now injection Hmain as ->.
Qed.

(** C3 (as the code has it): on a sheet in which no Test-Stage column is
    detected the run reports nothing about it.  The counts are taken over
    an empty set of columns: Available In is 0 for every row, so the
    metrics show every component both as used in all systems and as used
    in none, with a total of 0 over the rows for the mean.  The run goes
    through the ranked tables; the system-wise summary has no entry, and
    the run stops at its bar chart, right after the heading of the
    summary, in the exception that the plotting call raises on a summary
    without rows.  The totals of the pie chart and the heatmap are not
    reached.  (Assumed: no two columns of the sheet carry the same label
    and the preparation goes through.) *)
Theorem C3_no_test_columns_counts_over_nothing
  (sort_values_desc : string -> list Series -> list Series)
  (sel : selection) (df_raw df : DataFrame) :
  NoDup (columns df_raw) ->
  test_columns_of (columns df_raw) = [] ->
  snd (prepare sel df_raw) = Ok df ->
  let test_columns := test_columns_of (columns df) in
  let n := List.length (rows df) in
  let out := script sort_values_desc sel df_raw in
  test_columns = [] /\
  (forall row, available_in test_columns row = 0) /\
  firstn 4 (fst (metrics df))
  = [metric "📦 Total Components" (Count n);
     metric "🔁 Avg Used In Systems" (Mean 0 n);
     metric "✅ Used in All Systems" (Count n);
     metric "❌ Used in None" (Count n)] /\
  system_availability test_columns (rows df) = [] /\
  (exists final, snd (main sort_values_desc sel df_raw) = Ok final) /\
  fst out
  = fst (main sort_values_desc sel df_raw)
      ++ [subheader "System-Wise Component Availability Summary"] /\
  snd out = Raise PlotError /\
  reports "no test-stage columns found" (page out) = false.
Proof.
  intros _ Hraw Hprep test_columns n out.
  assert (H : test_columns = []).
  { subst test_columns. now rewrite (test_columns_after_prepare _ _ _ Hprep). }
  destruct (main_completes sort_values_desc _ _ _ Hprep) as [final Hfinal].
  assert (Hout : out
                 = (fst (main sort_values_desc sel df_raw)
                      ++ [subheader "System-Wise Component Availability Summary"],
                    Raise PlotError)).
  { subst out. rewrite (script_after_main _ _ _ _ _ Hprep Hfinal).
    fold test_columns. now rewrite H. }
  split; [exact H|].
  split; [now rewrite H|].
  split; [now apply metrics_without_test_columns|].
  split; [now rewrite H|].
  split; [now exists final|].
  rewrite Hout. cbn [fst snd]. repeat split.
  unfold page, reports. cbn [fst snd]. rewrite !existsb_app.
  fold (reports "no test-stage columns found"
          (fst (main sort_values_desc sel df_raw))).
  now rewrite main_never_reports_no_test_columns.
Qed.

Lemma C3_no_test_columns_counts_over_nothing_witness :
  firstn 4
    (fst (metrics
            (mkFrame
               ["Section"; "Nomenclature"; "Bom Qty"; "Stock";
                "Available Up To"; "Category"]
               [[("Section", Text "X"); ("Nomenclature", Text "Bolt");
                 ("Bom Qty", Int 2); ("Stock", Int 1);
                 ("Available Up To", Int 25); ("Category", PyNone)]])))
  = [metric "📦 Total Components" (Count 1);
     metric "🔁 Avg Used In Systems" (Mean 0 1);
     metric "✅ Used in All Systems" (Count 1);
     metric "❌ Used in None" (Count 1)].
Proof.
  exact (proj1 (proj2 (proj2
           (C3_no_test_columns_counts_over_nothing stable_sort_desc
              (mkSelection (Text "All") "All" "All")
              (mkFrame
                 ["Section"; "Nomenclature"; "Bom Qty"; "Stock";
                  "Available Up To"]
                 [[("Section", Text "X"); ("Nomenclature", Text "Bolt");
                   ("Bom Qty", Int 2); ("Stock", Int 1);
                   ("Available Up To", Text "AP 25")]])
              (mkFrame
                 ["Section"; "Nomenclature"; "Bom Qty"; "Stock";
                  "Available Up To"; "Category"]
                 [[("Section", Text "X"); ("Nomenclature", Text "Bolt");
                   ("Bom Qty", Int 2); ("Stock", Int 1);
                   ("Available Up To", Int 25); ("Category", PyNone)]])
              ltac:(distinct_labels) eq_refl eq_refl)))).
Defined.

(** C3 as the specification words it does not hold: on a sheet with the
    required columns and no Test-Stage column the run goes through the
    metrics and the ranked tables and stops at the bar chart, and nothing
    on the page says that no Test-Stage columns were found. *)
Lemma C3_no_report_counterexample :
  ~ (forall (sort_values_desc : string -> list Series -> list Series)
            (sel : selection) (df_raw : DataFrame),
        test_columns_of (columns df_raw) = [] ->
        reports "no test-stage columns found"
          (page (script sort_values_desc sel df_raw)) = true).
Proof.
  intros H.
  pose proof (H stable_sort_desc (mkSelection (Text "All") "All" "All")
                (mkFrame
                   ["Section"; "Nomenclature"; "Bom Qty"; "Stock";
                    "Available Up To"]
                   [[("Section", Text "X"); ("Nomenclature", Text "Bolt");
                     ("Bom Qty", Int 2); ("Stock", Int 1);
                     ("Available Up To", Text "AP 25")]]) eq_refl)
    as Hreports.
  vm_compute in Hreports. discriminate Hreports.
Qed.

(* ------------------------------------------------------------------ *)
(** ** A run from end to end *)

Example engine_sheet_run :
  let out := main stable_sort_desc (mkSelection (Text "All") "All" "All")
               engine_sheet in
  (exists df,
      snd out = Ok df /\
      map (at_col "Category") (rows df) = [Text "ENGINE"; Text "ENGINE"] /\
      map (at_col "Available In") (rows df) = [Int 1; Int 2] /\
      map (at_col "Available Up To") (rows df) = [Int 25; Int 100]) /\
  filter is_metric (fst out)
  = [metric "📦 Total Components" (Count 2);
     metric "🔁 Avg Used In Systems" (Mean 3 2);
     metric "✅ Used in All Systems" (Count 1);
     metric "❌ Used in None" (Count 0)].
Proof.
  split; [|reflexivity].
  eexists. split; [reflexivity|]. repeat split.
Qed.

Example available_in_of_four_stages :
  available_in ["T1"; "T2"; "T3"; "T4"]
    [("T1", Text "A"); ("T2", Text "S"); ("T3", Text "A"); ("T4", Text "I")]
  = 2.
Proof. reflexivity. Qed.

(* ================================================================== *)
(** * Further properties of the script *)

(* ------------------------------------------------------------------ *)
(** ** Column labels *)

Lemma case_chars (c : ascii) :
  Py.isspace (Py.upper_char c) = Py.isspace c /\
  Py.isspace (Pd.lower_char c) = Py.isspace c /\
  is_alpha (Py.upper_char c) = is_alpha c /\
  is_alpha (Pd.lower_char c) = is_alpha c /\
  Py.upper_char (Py.upper_char c) = Py.upper_char c /\
  Pd.lower_char (Pd.lower_char c) = Pd.lower_char c /\
  Pd.lower_char (Py.upper_char c) = Pd.lower_char c /\
  Py.upper_char (Pd.lower_char c) = Py.upper_char c.
Proof.
  destruct c as [[] [] [] [] [] [] [] []]; repeat split.
Qed.

Lemma title_from_cased (b : bool) (c : ascii) :
  let c' := if b then Pd.lower_char c else Py.upper_char c in
  Py.isspace c' = Py.isspace c /\ is_alpha c' = is_alpha c /\
  (if b then Pd.lower_char c' else Py.upper_char c') = c'.
Proof.
  destruct (case_chars c) as (H1 & H2 & H3 & H4 & H5 & H6 & _).
  destruct b; simpl; auto.
Qed.

Lemma title_from_idempotent (b : bool) (s : string) :
  title_from b (title_from b s) = title_from b s.
Proof.
  revert b. induction s as [|c s IH]; intros b; simpl; [reflexivity|].
  destruct (title_from_cased b c) as (_ & Ha & Hc).
  cbv zeta in Ha, Hc. now rewrite Hc, Ha, IH.
Qed.

Lemma space_not_alpha (c : ascii) :
  Py.isspace c = true -> is_alpha c = false.
Proof.
  destruct c as [[] [] [] [] [] [] [] []]; intros H;
    solve [reflexivity | discriminate H].
Qed.

Lemma lstrip_title (s : string) :
  Py.lstrip_of Py.isspace (title s) = title (Py.lstrip_of Py.isspace s).
Proof.
  unfold title. induction s as [|c s IH]; simpl; [reflexivity|].
  destruct (case_chars c) as (Hs & _).
  rewrite Hs. destruct (Py.isspace c) eqn:E; [|reflexivity].
  now rewrite (space_not_alpha c E).
Qed.

Lemma title_from_empty (b : bool) (s : string) :
  title_from b s = "" <-> s = "".
Proof. destruct s; simpl; split; easy. Qed.

Lemma rstrip_title (b : bool) (s : string) :
  Py.rstrip_of Py.isspace (title_from b s)
  = title_from b (Py.rstrip_of Py.isspace s).
Proof.
  revert b. induction s as [|c s IH]; intros b; simpl; [reflexivity|].
  rewrite IH.
  destruct (title_from_cased b c) as (Hs & _ & _). cbv zeta in Hs.
  destruct (Py.rstrip_of Py.isspace s) as [|d t] eqn:E; simpl.
  - rewrite Hs. now destruct (Py.isspace c).
  - reflexivity.
Qed.

Lemma strip_title (s : string) : Py.strip (title s) = title (Py.strip s).
Proof.
  unfold Py.strip, Py.strip_of. rewrite lstrip_title. apply rstrip_title.
Qed.

Section Strip.

Variable blank : ascii -> bool.

Lemma lstrip_head (s : string) :
  Py.lstrip_of blank s = "" \/
  exists c s', Py.lstrip_of blank s = String c s' /\ blank c = false.
Proof.
  induction s as [|c s IH]; simpl; [now left|].
  destruct (blank c) eqn:E; [exact IH|].
  right. now exists c, s.
Qed.

Lemma rstrip_head (c : ascii) (s : string) :
  blank c = false ->
  Py.rstrip_of blank (String c s) = String c (Py.rstrip_of blank s).
Proof.
  intros H. simpl. rewrite H. now destruct (Py.rstrip_of blank s).
Qed.

Lemma rstrip_idempotent (s : string) :
  Py.rstrip_of blank (Py.rstrip_of blank s) = Py.rstrip_of blank s.
Proof.
  induction s as [|c s IH]; simpl; [reflexivity|].
  destruct (Py.rstrip_of blank s) as [|d t] eqn:E.
  - destruct (blank c) eqn:Hc; simpl; [reflexivity|now rewrite Hc].
  - change (Py.rstrip_of blank (String c (String d t)))
      with (match Py.rstrip_of blank (String d t) with
            | EmptyString => if blank c then EmptyString
                             else String c EmptyString
            | u => String c u
            end).
    now rewrite IH.
Qed.

Lemma strip_idempotent (s : string) :
  Py.strip_of blank (Py.strip_of blank s) = Py.strip_of blank s.
Proof.
  unfold Py.strip_of.
  destruct (lstrip_head s) as [E | (c & s' & E & Hc)]; rewrite E.
  - reflexivity.
  - rewrite (rstrip_head _ _ Hc). simpl Py.lstrip_of at 1. rewrite Hc.
    rewrite <- (rstrip_head _ _ Hc). apply rstrip_idempotent.
Qed.

End Strip.

Lemma strip_map (f : ascii -> ascii) (s : string) :
  (forall c, Py.isspace (f c) = Py.isspace c) ->
  Py.strip (Py.map_chars f s) = Py.map_chars f (Py.strip s).
Proof.
  intros Hf. unfold Py.strip, Py.strip_of.
  assert (Hl : forall t, Py.lstrip_of Py.isspace (Py.map_chars f t)
                         = Py.map_chars f (Py.lstrip_of Py.isspace t)).
  { induction t as [|c t IH]; simpl; [reflexivity|].
    rewrite Hf. now destruct (Py.isspace c). }
  assert (Hr : forall t, Py.rstrip_of Py.isspace (Py.map_chars f t)
                         = Py.map_chars f (Py.rstrip_of Py.isspace t)).
  { induction t as [|c t IH]; simpl; [reflexivity|].
    rewrite IH, Hf.
    destruct (Py.rstrip_of Py.isspace t); simpl; [|reflexivity].
    now destruct (Py.isspace c). }
  now rewrite Hl, Hr.
Qed.

Lemma title_from_upper (b : bool) (s : string) :
  title_from b (Py.upper s) = title_from b s.
Proof.
  revert b. unfold Py.upper.
  induction s as [|c s IH]; intros b; simpl; [reflexivity|].
  destruct (case_chars c) as (_ & _ & Ha & _ & Hu & _ & Hl & _).
  rewrite Ha, IH, Hu, Hl. reflexivity.
Qed.

Lemma title_from_lower (b : bool) (s : string) :
  title_from b (Pd.lower s) = title_from b s.
Proof.
  revert b. unfold Pd.lower.
  induction s as [|c s IH]; intros b; simpl; [reflexivity|].
  destruct (case_chars c) as (_ & _ & _ & Ha & _ & Hl & _ & Hu).
  rewrite Ha, IH, Hu, Hl. reflexivity.
Qed.

(** X1: cleaning a column label does not depend on the case of its
    letters: a label, its uppercase and its lowercase clean to the same
    label, and so do two labels that differ in case only.  Cleaning a
    cleaned label changes nothing.  This is stated of ASCII labels, on
    which the case of a letter is a matter of ['a'..'z'] and ['A'..'Z']. *)
Theorem clean_label_ignores_case :
  (forall s, is_ascii s = true -> clean_label (Py.upper s) = clean_label s) /\
  (forall s, is_ascii s = true -> clean_label (Pd.lower s) = clean_label s) /\
  (forall s t, is_ascii s = true -> is_ascii t = true ->
               Pd.lower s = Pd.lower t -> clean_label s = clean_label t) /\
  (forall s, is_ascii s = true -> clean_label (clean_label s) = clean_label s).
Proof.
  assert (Hlow : forall s, clean_label (Pd.lower s) = clean_label s).
  { intros s. unfold clean_label, Pd.lower.
    rewrite strip_map by (intros c; apply case_chars).
    apply title_from_lower. }
  repeat split.
  - intros s _. unfold clean_label, Py.upper.
    rewrite strip_map by (intros c; apply case_chars).
    apply title_from_upper.
  - intros s _. apply Hlow.
  - intros s t _ _ H. now rewrite <- (Hlow s), <- (Hlow t), H.
  - intros s _. unfold clean_label.
    rewrite strip_title.
    change (Py.strip (Py.strip s)) with
      (Py.strip_of Py.isspace (Py.strip_of Py.isspace s)).
    rewrite strip_idempotent. apply title_from_idempotent.
Qed.

Lemma clean_label_ignores_case_witness :
  clean_label " BOM qty" = clean_label "Bom Qty ".
Proof.
  transitivity (clean_label (Pd.lower " BOM qty")).
  - symmetry.
    exact (proj1 (proj2 clean_label_ignores_case) " BOM qty" eq_refl).
  - transitivity (clean_label "bom qty "); [reflexivity|].
    exact (proj1 (proj2 (proj2 clean_label_ignores_case))
             "bom qty " "Bom Qty " eq_refl eq_refl eq_refl).
Defined.

Lemma prefix_cons (a c : ascii) (m s : string) :
  prefix (String a m) (String c s) = Ascii.eqb a c && prefix m s.
Proof.
  simpl. destruct (ascii_dec a c) as [->|Hne].
  - now rewrite Ascii.eqb_refl.
  - apply Ascii.eqb_neq in Hne. now rewrite Hne.
Qed.

Lemma prefix_empty (a : ascii) (m : string) : prefix (String a m) "" = false.
Proof. reflexivity. Qed.

Lemma contains_cons (m : string) (c : ascii) (s : string) :
  Py.contains m (String c s) = prefix m (String c s) || Py.contains m s.
Proof. reflexivity. Qed.

Lemma contains_empty (a : ascii) (m : string) :
  Py.contains (String a m) "" = false.
Proof. reflexivity. Qed.

Lemma contains_lstrip (a : ascii) (m s : string) :
  Py.isspace a = false ->
  Py.contains (String a m) (Py.lstrip_of Py.isspace s)
  = Py.contains (String a m) s.
Proof.
  intros Ha. induction s as [|c s IH]; [reflexivity|].
  simpl Py.lstrip_of. destruct (Py.isspace c) eqn:E; [|reflexivity].
  rewrite IH, contains_cons, prefix_cons.
  replace (Ascii.eqb a c) with false; [reflexivity|].
  symmetry. apply Ascii.eqb_neq. intros ->. congruence.
Qed.

Lemma prefix_rstrip (m s : string) :
  ends_unblank m = true ->
  prefix m (Py.rstrip_of Py.isspace s) = prefix m s.
Proof.
  revert m. induction s as [|c s IH]; intros [|a m] Hm; try reflexivity;
    try discriminate Hm.
  rewrite prefix_cons. simpl Py.rstrip_of.
  destruct m as [|a' m].
  - simpl in Hm. apply negb_true_iff in Hm.
    replace (prefix "" s) with true by (now destruct s).
    clear IH.
    destruct (Ascii.eqb a c) eqn:E.
    + apply Ascii.eqb_eq in E. subst c. rewrite Hm.
      destruct (Py.rstrip_of Py.isspace s) as [|d t];
        rewrite prefix_cons, Ascii.eqb_refl; reflexivity.
    + destruct (Py.rstrip_of Py.isspace s) as [|d t];
        [destruct (Py.isspace c)|];
        try rewrite prefix_cons, E; reflexivity.
  - assert (Hm' : ends_unblank (String a' m) = true) by exact Hm.
    specialize (IH _ Hm').
    destruct (Py.rstrip_of Py.isspace s) as [|d t].
    + rewrite <- IH, prefix_empty, andb_false_r.
      destruct (Py.isspace c); [reflexivity|].
      now rewrite prefix_cons, prefix_empty, andb_false_r.
    + now rewrite prefix_cons, IH.
Qed.

Lemma contains_rstrip (a : ascii) (m s : string) :
  ends_unblank (String a m) = true ->
  Py.contains (String a m) (Py.rstrip_of Py.isspace s)
  = Py.contains (String a m) s.
Proof.
  intros Hm. induction s as [|c s IH]; [reflexivity|].
  rewrite contains_cons, <- (prefix_rstrip _ (String c s) Hm), <- IH.
  simpl Py.rstrip_of.
  destruct (Py.rstrip_of Py.isspace s) as [|d t].
  - rewrite contains_empty.
    destruct (Py.isspace c); [reflexivity|].
    now rewrite contains_cons, contains_empty.
  - now rewrite contains_cons.
Qed.

Lemma contains_strip (a : ascii) (m s : string) :
  Py.isspace a = false ->
  ends_unblank (String a m) = true ->
  Py.contains (String a m) (Py.strip s) = Py.contains (String a m) s.
Proof.
  intros Ha Hm. unfold Py.strip, Py.strip_of.
  now rewrite contains_rstrip, contains_lstrip.
Qed.

Lemma lower_char_known (c x : ascii) :
  Ascii.eqb x (Pd.lower_char c) = true ->
  is_alpha c = is_alpha x /\ Pd.lower_char c = x /\
  Py.upper_char c = Py.upper_char x.
Proof.
  intros H. apply Ascii.eqb_eq in H. subst x.
  destruct (case_chars c) as (_ & _ & _ & Ha & _ & _ & _ & Hu).
  now rewrite Ha, Hu.
Qed.

(** The marker, in whatever case, at the head of a label comes out of
    [title] as "(A/I/F)". *)
Lemma title_marker_prefix (b : bool) (s : string) :
  prefix "(a/i/f)" (Pd.lower s) = true ->
  prefix "(A/I/F)" (title_from b s) = true.
Proof.
  unfold Pd.lower.
  destruct s as [|c0 [|c1 [|c2 [|c3 [|c4 [|c5 [|c6 s]]]]]]];
    cbn [Py.map_chars title_from]; rewrite ?prefix_cons, ?prefix_empty,
      ?andb_false_r; try discriminate.
  intros H.
  repeat (apply andb_true_iff in H; destruct H as [?H H]).
  repeat match goal with
         | Hc : Ascii.eqb _ (Pd.lower_char ?c) = true |- _ =>
             destruct (lower_char_known c _ Hc) as (? & ? & ?); clear Hc
         end.
  repeat match goal with
         | Hc : is_alpha _ = _ |- _ => rewrite Hc; clear Hc
         end.
  cbn [is_alpha Py.code nat_of_ascii].
  destruct b;
    repeat match goal with
           | Hc : Pd.lower_char _ = _ |- _ => rewrite ?Hc; clear Hc
           | Hc : Py.upper_char _ = _ |- _ => rewrite ?Hc; clear Hc
           end;
    now destruct s.
Qed.

Lemma title_marker (b : bool) (s : string) :
  Py.contains "(a/i/f)" (Pd.lower s) = true ->
  Py.contains "(A/I/F)" (title_from b s) = true.
Proof.
  revert b. induction s as [|c s IH]; intros b H; [discriminate H|].
  change (Pd.lower (String c s)) with (String (Pd.lower_char c) (Pd.lower s)) in H.
  rewrite contains_cons in H.
  change (title_from b (String c s))
    with (String (if b then Pd.lower_char c else Py.upper_char c)
                 (title_from (is_alpha c) s)).
  rewrite contains_cons.
  apply orb_true_iff in H as [H|H]; apply orb_true_iff.
  - left. apply (title_marker_prefix b (String c s)). exact H.
  - right. now apply IH.
Qed.

(** X2: a column whose label carries the marker "(a/i/f)" in any mix of
    upper and lower case, with or without blanks around the label, is a
    Test-Stage column once the labels are cleaned: its cleaned label
    contains "(A/I/F)" and is among the Test-Stage columns of the cleaned
    labels. *)
Theorem test_stage_marker_in_any_case (cols : list string) (s : string) :
  In s cols ->
  Py.contains "(a/i/f)" (Pd.lower s) = true ->
  Py.contains "(A/I/F)" (clean_label s) = true /\
  In (clean_label s) (test_columns_of (clean_labels cols)).
Proof.
  intros Hin H.
  assert (Hc : Py.contains "(A/I/F)" (clean_label s) = true).
  { unfold clean_label. apply title_marker.
    unfold Pd.lower. rewrite <- strip_map by (intros c; apply case_chars).
    rewrite contains_strip by reflexivity. exact H. }
  split; [exact Hc|].
  unfold test_columns_of, clean_labels. apply filter_In.
  split; [now apply in_map|exact Hc].
Qed.

Lemma test_stage_marker_in_any_case_witness :
  In "T1(A/I/F)" (test_columns_of (clean_labels ["stock"; " t1(a/I/f) "])).
Proof.
  refine (proj2 (test_stage_marker_in_any_case
                   ["stock"; " t1(a/I/f) "] " t1(a/I/f) " _ eq_refl)).
  right. now left.
Defined.

(* ------------------------------------------------------------------ *)
(** ** What category assignment leaves alone *)

Lemma is_heading_set (row : Series) (label : string) (v : cell) :
  String.eqb label "Bom Qty" = false ->
  is_heading (set row label v) = is_heading row.
Proof.
  intros H. unfold is_heading, bom_qty_digits, bom_qty_of.
  now rewrite get_set_other.
Qed.

Lemma heading_label_set (row : Series) (label : string) (v : cell) :
  String.eqb label "Nomenclature" = false ->
  heading_label (set row label v) = heading_label row.
Proof.
  intros H. unfold heading_label, nomenclature_of.
  now rewrite get_set_other.
Qed.

Lemma set_set (row : Series) (label : string) (v w : cell) :
  set (set row label v) label w = set row label w.
Proof.
  induction row as [|[l u] rest IH]; simpl.
  - now rewrite String.eqb_refl.
  - destruct (String.eqb l label) eqn:E; simpl; rewrite E;
      [reflexivity|now rewrite IH].
Qed.

Lemma labels_from_set_category (rs : list Series) (values : list cell)
  (category : option string) :
  List.length values = List.length rs ->
  labels_from category
    (map (fun rv => set (fst rv) "Category" (snd rv)) (combine rs values))
  = labels_from category rs.
Proof.
  revert values category.
  induction rs as [|r rs IH]; intros [|v values] category Hlen;
    try discriminate; [reflexivity|].
  simpl. rewrite is_heading_set, heading_label_set by reflexivity.
  injection Hlen as Hlen.
  destruct (is_heading r); now rewrite IH.
Qed.

Lemma set_column_twice (rs : list Series) (label : string)
  (values others : list cell) :
  List.length values = List.length rs ->
  map (fun rv => set (fst rv) label (snd rv))
      (combine (map (fun rv => set (fst rv) label (snd rv))
                    (combine rs values)) others)
  = map (fun rv => set (fst rv) label (snd rv)) (combine rs others).
Proof.
  revert values others.
  induction rs as [|r rs IH]; intros [|v values] [|w others] Hlen;
    try discriminate; try reflexivity.
  simpl. rewrite set_set. f_equal. apply IH. now injection Hlen.
Qed.

Lemma add_label_twice (cols : list string) (label : string) :
  add_label (add_label cols label) label = add_label cols label.
Proof.
  unfold add_label at 1.
  replace (existsb (String.eqb label) (add_label cols label)) with true;
    [reflexivity|].
  unfold add_label.
  destruct (existsb (String.eqb label) cols) eqn:E; [now rewrite E|].
  rewrite existsb_app. simpl. now rewrite String.eqb_refl, orb_true_r.
Qed.

(** X3: category assignment never reads a "Category" column that the
    sheet already has: whatever that column holds, the result is the same
    as without it.  In particular assigning categories a second time
    changes nothing. *)
Theorem assign_categories_overwrites_category :
  (forall (df : DataFrame) (values : list cell),
      List.length values = List.length (rows df) ->
      assign_categories (set_column df "Category" values)
      = assign_categories df) /\
  (forall df : DataFrame,
      assign_categories (assign_categories df) = assign_categories df).
Proof.
  assert (H : forall df values,
             List.length values = List.length (rows df) ->
             assign_categories (set_column df "Category" values)
             = assign_categories df).
  { intros df values Hlen.
    unfold assign_categories, set_column. cbn [columns rows].
    rewrite add_label_twice. f_equal.
    rewrite !categories_of_labels, (labels_from_set_category _ _ _ Hlen).
    now apply set_column_twice. }
  split; [exact H|].
  intros df. apply (H df). apply categories_of_length.
Qed.

Lemma assign_categories_overwrites_category_witness :
  assign_categories
    (set_column
       (mkFrame ["Nomenclature"; "Bom Qty"]
          [[("Nomenclature", Text "Engine"); ("Bom Qty", Text "-")];
           [("Nomenclature", Text "Bolt"); ("Bom Qty", Int 2)]])
       "Category" [Text "old"; Text "older"])
  = assign_categories
      (mkFrame ["Nomenclature"; "Bom Qty"]
         [[("Nomenclature", Text "Engine"); ("Bom Qty", Text "-")];
          [("Nomenclature", Text "Bolt"); ("Bom Qty", Int 2)]]).
Proof.
  exact (proj1 assign_categories_overwrites_category
           (mkFrame ["Nomenclature"; "Bom Qty"]
              [[("Nomenclature", Text "Engine"); ("Bom Qty", Text "-")];
               [("Nomenclature", Text "Bolt"); ("Bom Qty", Int 2)]])
           [Text "old"; Text "older"] eq_refl).
Defined.

(** X4: category assignment keeps the table: as many rows as before,
    every cell of every other column as it was, and the columns as they
    were with "Category" added at the end when it was not there. *)
Theorem assign_categories_keeps_table (df : DataFrame) :
  List.length (rows (assign_categories df)) = List.length (rows df) /\
  columns (assign_categories df)
  = (if has_column df "Category" then columns df
     else columns df ++ ["Category"]) /\
  forall label,
    String.eqb "Category" label = false ->
    map (at_col label) (rows (assign_categories df))
    = map (at_col label) (rows df).
Proof.
  pose proof (categories_of_length (rows df)) as Hlen.
  unfold assign_categories, set_column. cbn [columns rows].
  repeat split.
  - rewrite length_map, length_combine, Hlen. apply Nat.min_id.
  - intros label Hne. now apply set_column_other.
Qed.

Lemma assign_categories_keeps_table_witness :
  map (at_col "Stock")
      (rows (assign_categories
               (mkFrame ["Bom Qty"; "Stock"]
                  [[("Bom Qty", Text "-"); ("Stock", NaN)];
                   [("Bom Qty", Int 2); ("Stock", Int 7)]])))
  = [NaN; Int 7].
Proof.
  exact (proj2 (proj2 (assign_categories_keeps_table
                         (mkFrame ["Bom Qty"; "Stock"]
                            [[("Bom Qty", Text "-"); ("Stock", NaN)];
                             [("Bom Qty", Int 2); ("Stock", Int 7)]])))
           "Stock" eq_refl).
Defined.

(* ------------------------------------------------------------------ *)
(** ** The prepared table *)

Lemma filter_filter {A : Type} (p q : A -> bool) (l : list A) :
  filter p (filter q l) = filter (fun x => q x && p x) l.
Proof.
  induction l as [|x l IH]; simpl; [reflexivity|].
  destruct (q x); simpl; [destruct (p x)|]; now rewrite IH.
Qed.

Lemma where_rows_all (keep : Series -> bool) (df : DataFrame) :
  (forall r, keep r = true) -> where_rows keep df = df.
Proof.
  intros H. unfold where_rows. rewrite filter_all.
  - now destruct df.
  - apply Forall_forall. intros r _. apply H.
Qed.

Lemma filter_unless_all_result (is_all : bool) (label : string)
  (keep : Series -> bool) (df df' : DataFrame) :
  snd (filter_unless_all is_all label keep df) = Ok df' ->
  df' = where_rows (fun r => is_all || keep r) df.
Proof.
  unfold filter_unless_all. destruct is_all; simpl.
  - intros H. injection H as <-. now rewrite where_rows_all.
  - intros H. apply snd_bind_ok in H as (c & _ & H). now injection H as <-.
Qed.

Lemma apply_filters_rows (sel : selection) (df df' : DataFrame) :
  snd (apply_filters sel df) = Ok df' ->
  df' = where_rows (passes sel) df.
Proof.
  intros H. unfold apply_filters in H.
  apply snd_bind_ok in H as (df1 & H1 & H).
  apply snd_bind_ok in H as (df2 & H2 & H3).
  apply filter_unless_all_result in H1, H2, H3. subst df1 df2 df'.
  unfold where_rows. cbn [rows columns]. rewrite !filter_filter.
  f_equal. apply filter_ext. intros r.
  unfold passes, section_test, system_test, category_test.
  now rewrite andb_assoc.
Qed.

(** X5: when the three filters go through, their result is one pass over
    the rows: a row stays exactly when it passes the Section test, the
    System Type test and the Category test, in the order it had; the
    columns stay.  So the order in which the script applies the filters
    does not matter, and with "All" chosen three times the table is
    unchanged. *)
Theorem apply_filters_one_pass (sel : selection) (df df' : DataFrame) :
  snd (apply_filters sel df) = Ok df' ->
  columns df' = columns df /\
  rows df' = filter (passes sel) (rows df) /\
  (is_text "All" (selected_section sel) = true ->
   selected_system sel = "All" -> selected_category sel = "All" ->
   df' = df).
Proof.
  intros H. apply apply_filters_rows in H. subst df'.
  split; [reflexivity|]. split; [reflexivity|].
  intros Hs Hy Hc. apply where_rows_all. intros r.
  unfold passes, section_test, system_test, category_test.
  now rewrite Hs, Hy, Hc.
Qed.

Lemma apply_filters_one_pass_witness :
  rows (where_rows (fun r => is_text "X" (at_col "Section" r))
          (mkFrame ["Section"] [[("Section", Text "X")]; [("Section", Text "Y")]]))
  = filter (passes (mkSelection (Text "X") "All" "All"))
      [[("Section", Text "X")]; [("Section", Text "Y")]].
Proof.
  exact (proj1 (proj2 (apply_filters_one_pass
                         (mkSelection (Text "X") "All" "All")
                         (mkFrame ["Section"]
                            [[("Section", Text "X")]; [("Section", Text "Y")]])
                         (where_rows (fun r => is_text "X" (at_col "Section" r))
                            (mkFrame ["Section"]
                               [[("Section", Text "X")]; [("Section", Text "Y")]]))
                         eq_refl))).
Defined.

Lemma column_values (df : DataFrame) (label : string) (values : list cell) :
  snd (column df label) = Ok values -> values = map (at_col label) (rows df).
Proof.
  unfold column. destruct (has_column df label); [|discriminate].
  intros H. now injection H.
Qed.

Lemma clean_result (df df' : DataFrame) :
  snd (clean df) = Ok df' ->
  rows df'
  = map (fun r => set r "Available Up To"
                    (normalize_available_up_to (at_col "Available Up To" r)))
        (filter bom_qty_is_number (rows df)).
Proof.
  unfold clean. intros H.
  apply snd_bind_ok in H as (bom & _ & H). cbv zeta in H.
  apply snd_bind_ok in H as (aut & Ha & H).
  apply column_values in Ha. subst aut.
  apply snd_bind_ok in H as (u & _ & H).
  apply snd_bind_ok in H as (preview & _ & H).
  apply snd_bind_ok in H as (u' & _ & H).
  injection H as <-.
  rewrite map_map.
  apply (set_column_per_row (where_rows bom_qty_is_number df)
           "Available Up To"
           (fun r => normalize_available_up_to (at_col "Available Up To" r))).
Qed.

(** The prepared table is the categorised sheet, filtered once and with
    "Available Up To" normalised row by row. *)
Lemma prepare_result (sel : selection) (df_raw df : DataFrame) :
  snd (prepare sel df_raw) = Ok df ->
  rows df
  = map (fun r => set r "Available Up To"
                    (normalize_available_up_to (at_col "Available Up To" r)))
        (filter (fun r => passes sel r && bom_qty_is_number r)
                (rows (assign_categories df_raw))).
Proof.
  unfold prepare. cbv zeta. intros H.
  apply snd_bind_ok in H as (u & _ & H).
  apply snd_bind_ok in H as (df1 & H1 & H2).
  apply apply_filters_rows in H1. subst df1.
  apply clean_result in H2. rewrite H2. cbn [rows where_rows].
  now rewrite filter_filter.
Qed.

Lemma all_chars_take_while (p : ascii -> bool) (s : string) :
  Py.all_chars p (Pd.take_while p s) = true.
Proof.
  induction s as [|c s IH]; simpl; [reflexivity|].
  destruct (p c) eqn:E; simpl; [now rewrite E|reflexivity].
Qed.

Lemma extract_digits_numeric (s ds : string) :
  Pd.extract_digits s = Some ds -> Py.isnumeric ds = true.
Proof.
  induction s as [|c s IH]; [discriminate|].
  change (Pd.extract_digits (String c s))
    with (if Py.isdigit c then Some (Pd.take_while Py.isdigit (String c s))
          else Pd.extract_digits s).
  destruct (Py.isdigit c) eqn:E; [|exact IH].
  intros H. injection H as <-. simpl. rewrite E. simpl. rewrite E.
  apply all_chars_take_while.
Qed.

Lemma int_of_digits_from_nonneg (s : string) (acc : Z) :
  (0 <= acc)%Z -> (0 <= Py.int_of_digits_from acc s)%Z.
Proof.
  revert acc. induction s as [|c s IH]; intros acc H;
    cbn [Py.int_of_digits_from]; [exact H|].
  apply IH. unfold Py.digit_value. lia.
Qed.

Lemma normalize_range (v : cell) :
  stage_or_missing (normalize_available_up_to v).
Proof.
  unfold normalize_available_up_to, Pd.extracted, stage_or_missing.
  destruct (Pd.extract_digits (str v)) as [ds|] eqn:E; [|now left].
  right. simpl. rewrite (parse_digits _ (extract_digits_numeric _ _ E)).
  exists (Py.int_of_digits ds). split; [|reflexivity].
  now apply int_of_digits_from_nonneg.
Qed.

Lemma bom_qty_is_number_set (row : Series) (label : string) (v : cell) :
  String.eqb label "Bom Qty" = false ->
  bom_qty_is_number (set row label v) = bom_qty_is_number row.
Proof.
  intros H. unfold bom_qty_is_number, at_col. now rewrite get_set_other.
Qed.

(** X6: when the preparation goes through, the table it hands on is the
    categorised sheet filtered in one pass (a row stays when it passes
    the chosen filters and its Bom Qty reads as a number) with "Available
    Up To" normalised row by row; rows keep their order and are never
    more than uploaded.  Every row left has a Bom Qty that reads as a
    number, and its "Available Up To" is missing or an integer that is
    not negative. *)
Theorem prepare_postconditions (sel : selection) (df_raw df : DataFrame) :
  snd (prepare sel df_raw) = Ok df ->
  rows df
  = map (fun r => set r "Available Up To"
                    (normalize_available_up_to (at_col "Available Up To" r)))
        (filter (fun r => passes sel r && bom_qty_is_number r)
                (rows (assign_categories df_raw))) /\
  List.length (rows df) <= List.length (rows df_raw) /\
  Forall (fun r => bom_qty_is_number r = true /\
                   stage_or_missing (at_col "Available Up To" r))
         (rows df).
Proof.
  intros H. pose proof (prepare_result _ _ _ H) as Hrows.
  split; [exact Hrows|]. rewrite Hrows. split.
  - rewrite length_map.
    etransitivity; [apply filter_length_le|].
    unfold assign_categories, set_column. cbn [rows].
    rewrite length_map, length_combine, categories_of_length.
    now rewrite Nat.min_id.
  - apply Forall_forall. intros r' Hr'.
    apply in_map_iff in Hr' as (r & <- & Hr).
    apply filter_In in Hr as [_ Hr].
    apply andb_true_iff in Hr as [_ Hb].
    split.
    + now rewrite bom_qty_is_number_set.
    + unfold at_col at 1. rewrite get_set_same. apply normalize_range.
Qed.

Lemma prepare_postconditions_witness :
  List.length
    (rows (mkFrame
             ["Section"; "Nomenclature"; "Bom Qty"; "Stock";
              "Available Up To"; "Category"]
             [[("Section", Text "X"); ("Nomenclature", Text "Bolt");
               ("Bom Qty", Int 2); ("Stock", Int 1);
               ("Available Up To", Int 25); ("Category", Text "ENGINE")]]))
  <= 2.
Proof.
  exact (proj1 (proj2
           (prepare_postconditions
              (mkSelection (Text "All") "All" "All")
              (mkFrame
                 ["Section"; "Nomenclature"; "Bom Qty"; "Stock";
                  "Available Up To"]
                 [[("Section", Text "X"); ("Nomenclature", Text "Engine");
                   ("Bom Qty", Text "-"); ("Stock", NaN);
                   ("Available Up To", NaN)];
                  [("Section", Text "X"); ("Nomenclature", Text "Bolt");
                   ("Bom Qty", Int 2); ("Stock", Int 1);
                   ("Available Up To", Text "AP 25")]])
              (mkFrame
                 ["Section"; "Nomenclature"; "Bom Qty"; "Stock";
                  "Available Up To"; "Category"]
                 [[("Section", Text "X"); ("Nomenclature", Text "Bolt");
                   ("Bom Qty", Int 2); ("Stock", Int 1);
                   ("Available Up To", Int 25); ("Category", Text "ENGINE")]])
              eq_refl))).
Defined.

Lemma is_text_eq (t : string) (v : cell) :
  is_text t v = true -> v = Text t.
Proof.
  unfold is_text. destruct v; simpl; try discriminate.
  intros H. apply String.eqb_eq in H. now subst.
Qed.

(** In the categorised sheet a heading row carries no category. *)
Lemma headings_have_no_category (rs : list Series)
  (category : option string) :
  Forall (fun r => is_heading r = true -> at_col "Category" r = PyNone)
         (map (fun rv => set (fst rv) "Category" (snd rv))
              (combine rs (map category_cell (labels_from category rs)))).
Proof.
  revert category.
  induction rs as [|r rs IH]; intros category; simpl; [constructor|].
  destruct (is_heading r) eqn:E; simpl; constructor; try apply IH.
  - intros _. unfold at_col. now rewrite get_set_same.
  - rewrite is_heading_set by reflexivity. congruence.
Qed.

(** X7: with a Category chosen in the sidebar, every row of the prepared
    table carries that category and was classed as a data row by
    [assign_categories]: a row that the heading test of line 14 takes for
    a heading never gets through the Category filter, whatever its Bom
    Qty reads as. *)
Theorem category_filter_drops_headings
  (sel : selection) (df_raw df : DataFrame) :
  String.eqb (selected_category sel) "All" = false ->
  snd (prepare sel df_raw) = Ok df ->
  Forall (fun r => at_col "Category" r = Text (selected_category sel) /\
                   is_heading r = false)
         (rows df).
Proof.
  intros Hsel H. rewrite (prepare_result _ _ _ H).
  apply Forall_forall. intros r' Hr'.
  apply in_map_iff in Hr' as (r & <- & Hr).
  apply filter_In in Hr as [Hin Hr].
  apply andb_true_iff in Hr as [Hp _].
  unfold passes in Hp. apply andb_true_iff in Hp as [_ Hc].
  unfold category_test in Hc. rewrite Hsel in Hc. simpl in Hc.
  apply is_text_eq in Hc.
  unfold at_col at 1. rewrite get_set_other by reflexivity.
  rewrite is_heading_set by reflexivity.
  split; [exact Hc|].
  unfold assign_categories, set_column in Hin. cbn [rows] in Hin.
  rewrite categories_of_labels in Hin.
  pose proof (headings_have_no_category (rows df_raw) None) as Hall.
  rewrite Forall_forall in Hall. specialize (Hall r Hin).
  destruct (is_heading r); [|reflexivity].
  rewrite Hall in Hc by reflexivity. discriminate Hc.
Qed.

Lemma category_filter_drops_headings_witness :
  Forall (fun r => at_col "Category" r = Text "ENGINE" /\ is_heading r = false)
    [[("Section", Text "X"); ("Nomenclature", Text "Bolt");
      ("Bom Qty", Int 2); ("Stock", Int 1);
      ("Available Up To", Int 25); ("Category", Text "ENGINE")]].
Proof.
  exact (category_filter_drops_headings
           (mkSelection (Text "All") "All" "ENGINE")
           (mkFrame
              ["Section"; "Nomenclature"; "Bom Qty"; "Stock"; "Available Up To"]
              [[("Section", Text "X"); ("Nomenclature", Text "Engine");
                ("Bom Qty", Text "-"); ("Stock", NaN);
                ("Available Up To", NaN)];
               [("Section", Text "X"); ("Nomenclature", Text "Bolt");
                ("Bom Qty", Int 2); ("Stock", Int 1);
                ("Available Up To", Text "AP 25")]])
           (mkFrame
              ["Section"; "Nomenclature"; "Bom Qty"; "Stock";
               "Available Up To"; "Category"]
              [[("Section", Text "X"); ("Nomenclature", Text "Bolt");
                ("Bom Qty", Int 2); ("Stock", Int 1);
                ("Available Up To", Int 25); ("Category", Text "ENGINE")]])
           eq_refl eq_refl).
Defined.

(* ------------------------------------------------------------------ *)
(** ** When a run goes through *)

Lemma clean_runs (df : DataFrame) :
  has_column df "Bom Qty" = true ->
  has_column df "Available Up To" = true ->
  (forall l, In l required_preview -> has_column df l = true) ->
  exists df', snd (clean df) = Ok df'.
Proof.
  intros Hb Ha Hp. unfold clean. run.
  rewrite (column_present _ _ Hb). run. cbv zeta. run.
  rewrite column_present by exact Ha. run.
  rewrite select_present; [run; now eexists|].
  intros l Hl. rewrite has_column_set_column.
  change (has_column (where_rows bom_qty_is_number df) l)
    with (has_column df l).
  now rewrite (Hp l Hl).
Qed.

Lemma clean_needs (df df' : DataFrame) :
  snd (clean df) = Ok df' ->
  has_column df "Bom Qty" = true /\
  has_column df "Available Up To" = true /\
  has_column df "Section" = true /\
  has_column df "Nomenclature" = true /\
  has_column df "Stock" = true.
Proof.
  unfold clean. intros H.
  apply snd_bind_ok in H as (bom & Hb & H). cbv zeta in H.
  apply snd_bind_ok in H as (aut & Ha & H).
  apply column_ok in Hb, Ha.
  apply snd_bind_ok in H as (u & _ & H).
  apply snd_bind_ok in H as (preview & Hp & _).
  pose proof (select_ok _ _ _ Hp) as Hall.
  assert (Hl : forall l, In l required_preview ->
                         String.eqb l "Available Up To" = false ->
                         has_column df l = true).
  { intros l Hin Hne. specialize (Hall l Hin).
    rewrite has_column_set_column, Hne, orb_false_r in Hall. exact Hall. }
  repeat split; try assumption; apply Hl; try reflexivity;
    unfold required_preview; simpl; tauto.
Qed.

Lemma sidebar_needs (df : DataFrame) (u : unit) :
  snd (sidebar df) = Ok u -> has_column df "Section" = true.
Proof.
  unfold sidebar. intros H.
  apply snd_bind_ok in H as (u0 & _ & H).
  apply snd_bind_ok in H as (section & Hs & _).
  now apply column_ok in Hs.
Qed.

(** Up to the ranked tables: the run gets there only with the five
    columns of the analysis, and with them it does. *)
Lemma main_goes_through
  (sort_values_desc : string -> list Series -> list Series)
  (sel : selection) (df_raw : DataFrame) :
  ((exists final, snd (main sort_values_desc sel df_raw) = Ok final) ->
   missing_required (columns df_raw) = []) /\
  (missing_required (columns df_raw) = [] ->
   section_sortable df_raw = true ->
   valid_system sel df_raw = true ->
   exists final,
     snd (main sort_values_desc sel df_raw) = Ok final /\
     page (main sort_values_desc sel df_raw)
     = fst (main sort_values_desc sel df_raw)).
Proof.
  split.
  - intros [final H]. unfold main in H.
    apply snd_bind_ok in H as (df & H & _).
    unfold prepare in H. cbv zeta in H.
    apply snd_bind_ok in H as (u & _ & H).
    apply snd_bind_ok in H as (df1 & H1 & H2).
    apply apply_filters_columns in H1.
    apply clean_needs in H2 as (Hb & Ha & Hs & Hn & Hk).
    assert (Hraw : forall l, has_column df1 l = true ->
                             String.eqb l "Category" = false ->
                             existsb (String.eqb l) (columns df_raw) = true).
    { intros l Hl Hne.
      rewrite (has_column_same _ _ _ H1), has_column_assign, Hne in Hl.
      now rewrite orb_false_r in Hl. }
    apply Hraw in Hb, Ha, Hs, Hn, Hk; try reflexivity.
    unfold missing_required, required_columns. cbn [filter].
    now rewrite Hb, Ha, Hs, Hn, Hk.
  - intros Hmissing Hsort Hvalid.
    unfold missing_required, required_columns in Hmissing.
    cbn [filter] in Hmissing.
    destruct (existsb (String.eqb "Section") (columns df_raw)) eqn:ES;
      [|discriminate Hmissing].
    destruct (existsb (String.eqb "Nomenclature") (columns df_raw)) eqn:EN;
      [|discriminate Hmissing].
    destruct (existsb (String.eqb "Bom Qty") (columns df_raw)) eqn:EB;
      [|discriminate Hmissing].
    destruct (existsb (String.eqb "Stock") (columns df_raw)) eqn:EK;
      [|discriminate Hmissing].
    destruct (existsb (String.eqb "Available Up To") (columns df_raw)) eqn:EA;
      [|discriminate Hmissing].
    destruct (apply_filters_runs sel (assign_categories df_raw))
      as (df1 & E1 & C1).
    { now rewrite has_column_assign, ES. }
    { rewrite has_column_assign. apply orb_true_r. }
    { unfold valid_system in *. rewrite has_column_assign.
      destruct (String.eqb (selected_system sel) "All"); [reflexivity|].
      simpl in Hvalid. unfold has_column in Hvalid. now rewrite Hvalid. }
    destruct (clean_runs df1) as [df E2].
    { now rewrite (has_column_same _ _ _ C1), has_column_assign, EB. }
    { now rewrite (has_column_same _ _ _ C1), has_column_assign, EA. }
    { intros l Hl. rewrite (has_column_same _ _ _ C1), has_column_assign.
      unfold required_preview in Hl. simpl in Hl.
      destruct Hl as [<-|[<-|[<-|[<-|[<-|[]]]]]];
        rewrite ?ES, ?EN, ?EB, ?EK; try reflexivity.
      apply orb_true_r. }
    assert (Hprep : snd (prepare sel df_raw) = Ok df).
    { unfold prepare. cbv zeta.
      now rewrite snd_bind, (sidebar_after_assign _ ES Hsort), snd_bind, E1. }
    destruct (main_completes sort_values_desc _ _ _ Hprep) as [final Hfinal].
    exists final. split; [exact Hfinal|].
    unfold page. rewrite Hfinal. apply app_nil_r.
Qed.

(** X8: on a sheet whose labels are pairwise distinct, lines 37-135 go
    through without an exception exactly when the columns the analysis
    reads are all there and at least one Test-Stage column is detected: a
    run that gets past the bar chart of the summary had Section,
    Nomenclature, Bom Qty, Stock, Available Up To and a Test-Stage
    column; and with these present (the Section values not a mix of
    texts and integers, the System Type chosen one of the columns or
    "All") the run gets past the bar chart, and the page shows no
    exception up to there. *)
Theorem run_goes_through_iff_columns_present
  (sort_values_desc : string -> list Series -> list Series)
  (sel : selection) (df_raw : DataFrame) :
  NoDup (columns df_raw) ->
  ((exists final, snd (script sort_values_desc sel df_raw) = Ok final) ->
   missing_required (columns df_raw) = [] /\
   test_columns_of (columns df_raw) <> []) /\
  (missing_required (columns df_raw) = [] ->
   test_columns_of (columns df_raw) <> [] ->
   section_sortable df_raw = true ->
   valid_system sel df_raw = true ->
   exists final,
     snd (script sort_values_desc sel df_raw) = Ok final /\
     page (script sort_values_desc sel df_raw)
     = fst (script sort_values_desc sel df_raw)).
Proof.
  intros _.
  destruct (main_goes_through sort_values_desc sel df_raw) as [Hneeds Hruns].
  split.
  - intros [final H].
    destruct (snd (main sort_values_desc sel df_raw)) as [counted|e] eqn:Em.
    + split; [apply Hneeds; now exists counted|].
      assert (Hp : exists df, snd (prepare sel df_raw) = Ok df).
      { unfold main in Em. apply snd_bind_ok in Em as (df & Hdf & _).
        now exists df. }
      destruct Hp as [df Hdf].
      rewrite (script_after_main _ _ _ _ _ Hdf Em) in H. cbn [snd] in H.
      rewrite (test_columns_after_prepare _ _ _ Hdf) in H.
      intros Hnone. rewrite Hnone in H. discriminate H.
    + rewrite (script_stops_with_main _ _ _ _ Em) in H. discriminate H.
  - intros Hmissing Hsome Hsort Hvalid.
    destruct (Hruns Hmissing Hsort Hvalid) as (counted & Hm & _).
    assert (Hp : exists df, snd (prepare sel df_raw) = Ok df).
    { pose proof Hm as Em. unfold main in Em.
      apply snd_bind_ok in Em as (df & Hdf & _). now exists df. }
    destruct Hp as [df Hdf].
    rewrite (script_after_main _ _ _ _ _ Hdf Hm).
    rewrite (test_columns_after_prepare _ _ _ Hdf).
    unfold summary_chart, system_availability.
    destruct (test_columns_of (columns df_raw)) as [|c cs]; [now elim Hsome|].
    exists counted. split; [reflexivity|].
    unfold page. cbn [map snd fst bind emit ret]. apply app_nil_r.
Qed.

Lemma run_goes_through_iff_columns_present_witness :
  exists final,
    snd (script stable_sort_desc (mkSelection (Text "All") "All" "All")
           engine_sheet) = Ok final /\
    page (script stable_sort_desc (mkSelection (Text "All") "All" "All")
            engine_sheet)
    = fst (script stable_sort_desc (mkSelection (Text "All") "All" "All")
             engine_sheet).
Proof.
  refine (proj2 (run_goes_through_iff_columns_present stable_sort_desc
                   (mkSelection (Text "All") "All" "All") engine_sheet _)
            eq_refl _ eq_refl eq_refl).
  - distinct_labels.
  - discriminate.
Defined.



Lemma bind_raise {A B : Type} (e : exn) (k : A -> M B) :
  bind (raise e) k = raise e.
Proof. reflexivity. Qed.






(* ------------------------------------------------------------------ *)
(** ** The metrics and the counts behind them *)

Lemma length_filter_map {A B : Type} (p : B -> bool) (f : A -> B)
  (l : list A) :
  List.length (filter p (map f l))
  = List.length (filter (fun x => p (f x)) l).
Proof.
  induction l as [|x l IH]; simpl; [reflexivity|].
  destruct (p (f x)); simpl; now rewrite IH.
Qed.


Lemma count_cell_eqb (a b : nat) :
  cell_eqb (count_cell a) (count_cell b) = Nat.eqb a b.
Proof.
  unfold count_cell. simpl.
  destruct (Nat.eqb a b) eqn:E.
  - apply Nat.eqb_eq in E. subst. apply Z.eqb_refl.
  - apply Nat.eqb_neq in E. apply Z.eqb_neq. lia.
Qed.





(* ------------------------------------------------------------------ *)
(** ** Critical components *)







(* ------------------------------------------------------------------ *)
(** ** Numbers and their text form *)

Lemma digits_of_uint (d : Decimal.uint) :
  Py.all_chars Py.isdigit (NilEmpty.string_of_uint d) = true.
Proof. induction d; simpl; auto. Qed.

Lemma int_of_digits_from_uint (d : Decimal.uint) (acc : positive) :
  Py.int_of_digits_from (Z.pos acc) (NilEmpty.string_of_uint d)
  = Z.pos (Pos.of_uint_acc d acc).
Proof.
  revert acc. induction d; intros acc; cbn [NilEmpty.string_of_uint
    Py.int_of_digits_from Pos.of_uint_acc]; [reflexivity|..];
    rewrite <- IHd; f_equal;
    match goal with
    | |- context [Py.digit_value ?c] =>
        let v := eval vm_compute in (Py.digit_value c) in
        change (Py.digit_value c) with v
    end; lia.
Qed.

Lemma int_of_digits_uint (d : Decimal.uint) :
  Py.int_of_digits_from 0 (NilEmpty.string_of_uint d) = Z.of_N (Pos.of_uint d).
Proof.
  induction d; cbn [NilEmpty.string_of_uint Py.int_of_digits_from Pos.of_uint];
    [reflexivity|exact IHd|..];
    apply (int_of_digits_from_uint d).
Qed.

(** The text form of a positive integer: its digits, a number that reads
    back as the integer. *)
Lemma str_of_pos (p : positive) :
  exists ds,
    NilZero.string_of_uint (Pos.to_uint p) = ds /\
    Py.isnumeric ds = true /\
    Py.int_of_digits ds = Z.pos p.
Proof.
  exists (NilEmpty.string_of_uint (Pos.to_uint p)).
  pose proof (DecimalPos.Unsigned.to_uint_nonnil p) as Hnil.
  pose proof (DecimalPos.Unsigned.of_to p) as Hof.
  pose proof (digits_of_uint (Pos.to_uint p)) as Hd.
  pose proof (int_of_digits_uint (Pos.to_uint p)) as Hi.
  rewrite Hof in Hi.
  destruct (Pos.to_uint p); try (now contradiction Hnil);
    (split; [reflexivity|split; [exact Hd|exact Hi]]).
Qed.

Lemma extract_digits_all (ds : string) :
  Py.isnumeric ds = true -> Pd.extract_digits ds = Some ds.
Proof.
  intros H. rewrite <- (append_empty ds) at 1.
  now apply extract_digits_run.
Qed.

Lemma normalize_digits (v : cell) (ds : string) :
  Pd.extract_digits (str v) = Some ds ->
  Py.isnumeric ds = true ->
  normalize_available_up_to v = Int (Py.int_of_digits ds).
Proof.
  intros He Hd. unfold normalize_available_up_to, Pd.extracted.
  rewrite He. simpl. now rewrite (parse_digits _ Hd).
Qed.

(** X13: normalising "Available Up To" on an integer cell yields its
    absolute value (the sign is not part of the run of digits), and
    normalising twice is the same as normalising once: a normalised
    column is left as it is by a second pass.  Both are stated of numbers
    up to [exact_limit], which a float column holds exactly and writes
    without an exponent. *)
Theorem normalize_available_up_to_idempotent :
  (forall z : Z,
      (Z.abs z <= exact_limit)%Z ->
      normalize_available_up_to (Int z) = Int (Z.abs z)) /\
  (forall v : cell,
      (forall z, normalize_available_up_to v = Int z ->
                 (z <= exact_limit)%Z) ->
      normalize_available_up_to (normalize_available_up_to v)
      = normalize_available_up_to v).
Proof.
  assert (Hint : forall z, normalize_available_up_to (Int z) = Int (Z.abs z)).
  { intros [|p|p].
    - reflexivity.
    - destruct (str_of_pos p) as (ds & Hs & Hd & Hv).
      rewrite (normalize_digits (Int (Z.pos p)) ds); [now rewrite Hv| |exact Hd].
      simpl str. unfold Py.str_of_int. simpl Z.to_int.
      simpl NilZero.string_of_int. rewrite Hs. now apply extract_digits_all.
    - destruct (str_of_pos p) as (ds & Hs & Hd & Hv).
      rewrite (normalize_digits (Int (Z.neg p)) ds); [now rewrite Hv| |exact Hd].
      simpl str. unfold Py.str_of_int. simpl Z.to_int.
      simpl NilZero.string_of_int. rewrite Hs.
      change (Pd.extract_digits (String "-" ds)) with (Pd.extract_digits ds).
      now apply extract_digits_all. }
  split; [intros z _; apply Hint|].
  intros v _. destruct (normalize_range v) as [H|(z & Hz & H)]; rewrite H.
  - reflexivity.
  - rewrite Hint. f_equal. now apply Z.abs_eq.
Qed.

Lemma normalize_available_up_to_idempotent_witness :
  normalize_available_up_to (normalize_available_up_to (Text "AP 25"))
  = normalize_available_up_to (Text "AP 25").
Proof.
  refine (proj2 normalize_available_up_to_idempotent (Text "AP 25") _).
  intros z H. vm_compute in H. injection H as <-.
  vm_compute. discriminate.
Defined.

(* ------------------------------------------------------------------ *)
(** ** Where the heading test and the numeric filter agree *)

Lemma digit_plain (c : ascii) :
  Py.isdigit c = true ->
  Py.isspace c = false /\ Ascii.eqb c "-" = false /\ Ascii.eqb c " " = false.
Proof.
  destruct c as [[] [] [] [] [] [] [] []]; intros H;
    solve [discriminate H | repeat split].
Qed.

Lemma dash_blank_char (c : ascii) :
  dash_or_blank c = true ->
  Py.isdigit c = false /\ Ascii.eqb c "." = false /\
  Pd.lower_char c = c /\ Ascii.eqb c "i" = false.
Proof.
  destruct c as [[] [] [] [] [] [] [] []]; intros H;
    solve [discriminate H | repeat split].
Qed.

Lemma remove_char_absent (c : ascii) (s : string) :
  Py.all_chars (fun d => negb (Ascii.eqb d c)) s = true ->
  Py.remove_char c s = s.
Proof.
  induction s as [|d s IH]; simpl; intros H; [reflexivity|].
  apply andb_true_iff in H as [Hd Hs]. apply negb_true_iff in Hd.
  now rewrite Hd, IH.
Qed.

Lemma all_chars_weaken (p q : ascii -> bool) (s : string) :
  (forall c, p c = true -> q c = true) ->
  Py.all_chars p s = true -> Py.all_chars q s = true.
Proof.
  intros Hpq. induction s as [|c s IH]; simpl; intros H; [reflexivity|].
  apply andb_true_iff in H as [Hc Hs]. now rewrite (Hpq c Hc), IH.
Qed.

Lemma strip_no_blank (blank : ascii -> bool) (s : string) :
  Py.all_chars (fun c => negb (blank c)) s = true -> Py.strip_of blank s = s.
Proof.
  intros H. unfold Py.strip_of.
  replace (Py.lstrip_of blank s) with s; [now apply rstrip_no_blank|].
  destruct s as [|c s]; [reflexivity|].
  simpl in H |- *. apply andb_true_iff in H as [Hc _].
  apply negb_true_iff in Hc. now rewrite Hc.
Qed.

(** The digits of a quantity pass the heading test of line 14 as a data
    row, with or without a leading minus sign. *)
Lemma digits_are_data (ds : string) (minus : bool) :
  Py.isnumeric ds = true ->
  Py.isnumeric
    (Py.remove_char " "
       (Py.remove_char "-"
          (Py.strip (if minus then String "-" ds else ds)))) = true.
Proof.
  intros Hd.
  assert (Hall : Py.all_chars Py.isdigit ds = true)
    by (destruct ds; [discriminate|exact Hd]).
  assert (Hstrip : Py.strip (if minus then String "-" ds else ds)
                   = if minus then String "-" ds else ds).
  { apply strip_no_blank.
    assert (Hns : Py.all_chars (fun c => negb (Py.isspace c)) ds = true).
    { apply (all_chars_weaken Py.isdigit); [|exact Hall].
      intros c Hc. now destruct (digit_plain c Hc) as (-> & _). }
    destruct minus; [simpl; exact Hns|exact Hns]. }
  rewrite Hstrip.
  assert (Hdash : Py.remove_char "-" (if minus then String "-" ds else ds) = ds).
  { assert (H : Py.remove_char "-" ds = ds).
    { apply remove_char_absent.
      apply (all_chars_weaken Py.isdigit); [|exact Hall].
      intros c Hc. now destruct (digit_plain c Hc) as (_ & -> & _). }
    destruct minus; [simpl; exact H|exact H]. }
  rewrite Hdash, remove_char_absent; [exact Hd|].
  apply (all_chars_weaken Py.isdigit); [|exact Hall].
  intros c Hc. now destruct (digit_plain c Hc) as (_ & _ & ->).
Qed.

Lemma str_of_int_digits (z : Z) :
  exists (ds : string) (minus : bool),
    Py.str_of_int z = (if minus then String "-" ds else ds) /\
    Py.isnumeric ds = true.
Proof.
  destruct z as [|p|p].
  - now exists "0", false.
  - destruct (str_of_pos p) as (ds & Hs & Hd & _).
    exists ds, false. split; [|exact Hd]. exact Hs.
  - destruct (str_of_pos p) as (ds & Hs & Hd & _).
    exists ds, true. split; [|exact Hd].
    unfold Py.str_of_int. simpl. now rewrite Hs.
Qed.

Lemma dash_blank_suffix (s : string) :
  Py.all_chars dash_or_blank s = true ->
  Py.all_chars dash_or_blank (Pd.drop_sign s) = true.
Proof.
  destruct s as [|c s]; [easy|]. simpl. intros H.
  apply andb_true_iff in H as [Hc Hs].
  destruct (Pd.is_sign c); [exact Hs|]. simpl. now rewrite Hc, Hs.
Qed.

Lemma dash_blank_not_infinity (s : string) :
  Py.all_chars dash_or_blank s = true -> Pd.is_infinity s = false.
Proof.
  destruct s as [|c s]; [reflexivity|]. simpl. intros H.
  apply andb_true_iff in H as [Hc _].
  destruct (dash_blank_char c Hc) as (_ & _ & Hl & Hi).
  unfold Pd.is_infinity, Pd.lower. simpl. now rewrite Hl, Hi.
Qed.

(** A text of dashes and blanks does not read as a number. *)
Lemma dash_blank_not_number (s : string) :
  Py.all_chars dash_or_blank s = true -> Pd.parse s = Pd.Missing.
Proof.
  intros H. unfold Pd.parse.
  rewrite (dash_blank_not_infinity _ (dash_blank_suffix _ H)). cbv zeta.
  assert (Hbody : Py.all_chars dash_or_blank
                    (Pd.drop_sign (Py.strip_of Pd.is_blank s)) = true).
  { apply dash_blank_suffix. unfold Py.strip_of.
    now apply all_chars_rstrip, all_chars_lstrip. }
  destruct (Pd.drop_sign (Py.strip_of Pd.is_blank s)) as [|c body];
    [reflexivity|].
  simpl in Hbody. apply andb_true_iff in Hbody as [Hc _].
  destruct (dash_blank_char c Hc) as (Hd & Hp & _).
  simpl. rewrite Hd, Hp. reflexivity.
Qed.

(** X14: on the Bom Qty cells a sheet usually has (an integer, a missing
    value, a text of digits only, a text of dashes and blanks only) the
    heading test of line 14 and the numeric filter of line 62 agree: the
    row is a heading exactly when the filter drops it, and that is
    exactly when the cell holds no quantity. *)
Theorem heading_test_and_filter_agree_on_plain_cells
  (row : Series) (v : cell) :
  get row "Bom Qty" (Text "") = v ->
  at_col "Bom Qty" row = v ->
  plain_quantity v ->
  is_heading row = negb (holds_quantity v) /\
  bom_qty_is_number row = holds_quantity v.
Proof.
  intros Hget Hat Hplain.
  unfold is_heading, bom_qty_digits, bom_qty_of, bom_qty_is_number.
  rewrite Hget, Hat.
  destruct v as [s|z| |]; simpl holds_quantity; simpl Pd.to_numeric.
  - destruct Hplain as [Hd|Hb].
    + rewrite Hd. split.
      * simpl str. now rewrite (digits_are_data s false Hd).
      * now rewrite (parse_digits _ Hd).
    + assert (Hn : Py.isnumeric s = false).
      { destruct s as [|c s]; [reflexivity|]. simpl in Hb |- *.
        apply andb_true_iff in Hb as [Hc _].
        now destruct (dash_blank_char c Hc) as (-> & _). }
      rewrite Hn. split.
      * simpl str.
        apply (all_chars_strip dash_or_blank) in Hb.
        apply removed_all_empty in Hb. now rewrite Hb.
      * now rewrite (dash_blank_not_number _ Hb).
  - split; [|reflexivity].
    destruct (str_of_int_digits z) as (ds & minus & Hs & Hd).
    simpl str. rewrite Hs. now rewrite (digits_are_data ds minus Hd).
  - now split.
  - now split.
Qed.

Lemma heading_test_and_filter_agree_on_plain_cells_witness :
  is_heading [("Nomenclature", Text "Bolt"); ("Bom Qty", Int (-12))] = false /\
  bom_qty_is_number [("Nomenclature", Text "Bolt"); ("Bom Qty", Int (-12))]
  = true.
Proof.
  exact (heading_test_and_filter_agree_on_plain_cells
           [("Nomenclature", Text "Bolt"); ("Bom Qty", Int (-12))] (Int (-12))
           eq_refl eq_refl I).
Defined.

(* ------------------------------------------------------------------ *)
(** ** A System Type chosen in the sidebar *)

Lemma used_in_none_metric (df : DataFrame) :
  nth_error (fst (metrics df)) 3
  = Some (metric "❌ Used in None"
            (Count (List.length
                      (filter (fun c => Nat.eqb c 0)
                         (map (available_in (test_columns_of (columns df)))
                              (rows df)))))).
Proof.
  unfold metrics. cbv zeta. rewrite !fst_emit_bind.
  cbn [nth_error where_rows rows].
  rewrite map_map, set_column_per_row, !length_filter_map.
  do 4 f_equal. apply filter_ext. intros r.
  unfold at_col. rewrite get_set_same.
  apply (count_cell_eqb _ 0).
Qed.

Lemma marker_not_available_up_to (c : string) :
  Py.contains "(A/I/F)" c = true ->
  String.eqb "Available Up To" c = false.
Proof.
  intros H. destruct (String.eqb "Available Up To" c) eqn:E; [|reflexivity].
  apply String.eqb_eq in E. subst c. discriminate H.
Qed.

(** X15: with a System Type chosen in the sidebar, every component of
    the prepared table has "A" in that column, so each is available in at
    least one system and the "Used in None" metric shows 0. *)
Theorem system_filter_leaves_no_unused
  (sel : selection) (df_raw df : DataFrame) :
  String.eqb (selected_system sel) "All" = false ->
  In (selected_system sel) (test_columns_of (columns df_raw)) ->
  snd (prepare sel df_raw) = Ok df ->
  Forall (fun r => at_col (selected_system sel) r = Text "A" /\
                   1 <= available_in (test_columns_of (columns df)) r)
         (rows df) /\
  nth_error (fst (metrics df)) 3 = Some (metric "❌ Used in None" (Count 0)).
Proof.
  intros Hsel Hin Hprep.
  assert (Hne : String.eqb "Available Up To" (selected_system sel) = false).
  { apply marker_not_available_up_to.
    unfold test_columns_of in Hin. now apply filter_In in Hin. }
  assert (Hrows : Forall (fun r => at_col (selected_system sel) r = Text "A" /\
                     1 <= available_in (test_columns_of (columns df)) r)
                    (rows df)).
  { rewrite (test_columns_after_prepare _ _ _ Hprep).
    rewrite (prepare_result _ _ _ Hprep).
    apply Forall_forall. intros r' Hr'.
    apply in_map_iff in Hr' as (r & <- & Hr).
    apply filter_In in Hr as [_ Hr].
    apply andb_true_iff in Hr as [Hp _].
    unfold passes in Hp. apply andb_true_iff in Hp as [Hp _].
    apply andb_true_iff in Hp as [_ Hs].
    unfold system_test in Hs. rewrite Hsel in Hs. simpl in Hs.
    assert (Ha : at_col (selected_system sel)
                   (set r "Available Up To"
                      (normalize_available_up_to (at_col "Available Up To" r)))
                 = Text "A").
    { unfold at_col at 1. rewrite get_set_other by exact Hne.
      now apply is_text_eq. }
    split; [exact Ha|].
    unfold available_in, count_status.
    induction (test_columns_of (columns df_raw)) as [|c cs IH];
      [destruct Hin|].
    simpl. destruct Hin as [->|Hin].
    - rewrite Ha. simpl. lia.
    - specialize (IH Hin).
      destruct (is_text "A" (at_col c _)); simpl; lia. }
  split; [exact Hrows|].
  rewrite used_in_none_metric. do 3 f_equal.
  rewrite length_filter_map.
  induction Hrows as [|r rs [_ Hr] _ IH]; [reflexivity|].
  simpl. destruct (Nat.eqb_spec (available_in (test_columns_of (columns df)) r) 0);
    [lia|exact IH].
Qed.

Lemma system_filter_leaves_no_unused_witness :
  nth_error
    (fst (metrics
            (mkFrame
               ["Section"; "Nomenclature"; "Bom Qty"; "Stock";
                "Available Up To"; "T1(A/I/F)"; "T2(A/I/F)"; "Category"]
               [[("Section", Text "X"); ("Nomenclature", Text "Nut");
                 ("Bom Qty", Text "3"); ("Stock", Int 0);
                 ("Available Up To", Int 100); ("T1(A/I/F)", Text "A");
                 ("T2(A/I/F)", Text "A"); ("Category", Text "ENGINE")]]))) 3
  = Some (metric "❌ Used in None" (Count 0)).
Proof.
  exact (proj2 (system_filter_leaves_no_unused
                  (mkSelection (Text "All") "T2(A/I/F)" "All") engine_sheet
                  (mkFrame
                     ["Section"; "Nomenclature"; "Bom Qty"; "Stock";
                      "Available Up To"; "T1(A/I/F)"; "T2(A/I/F)"; "Category"]
                     [[("Section", Text "X"); ("Nomenclature", Text "Nut");
                       ("Bom Qty", Text "3"); ("Stock", Int 0);
                       ("Available Up To", Int 100); ("T1(A/I/F)", Text "A");
                       ("T2(A/I/F)", Text "A"); ("Category", Text "ENGINE")]])
                  eq_refl (or_intror (or_introl eq_refl)) eq_refl)).
Defined.

(* ------------------------------------------------------------------ *)
(** ** What the Category selector offers *)












